(** * Revenue analysis and target-setting engine

    A shallow embedding of the decision logic of
    [notebook_2/advanced_revenue_optimization_analysis.py]
    (class [AdvancedRevenueAnalyzer]) and of
    [notebook_2/qualitative_target_revenue_optimization.py]
    (class [QuantitativeTargets]), with the properties of the specification
    stated and settled against it.

    Conventions of the embedding.

    - Numbers.  The Python code computes on binary64 values and, where a
      column of the pricing frame holds Python integers only, on [int64]
      values.  The embedding has two layers.  The main one models finite
      values by exact rationals ([Q]): it carries the control flow, the
      formulas, the comparisons and the exceptions, and says nothing of
      rounding, of signed zeros or of integer wrap-around.  Its statements
      are those that read the same when the operators are the machine's; a
      statement that needs more says so in a hypothesis.  The module
      [Binary64] follows the loop body of [analyze_revenue_potential] and
      the overall target on the machine's values: primitive binary64
      floats, [int64] products that wrap around modulo 2^64, and the
      [OverflowError] of a Python integer that does not fit.  Values that
      depend on rounding or on wrap-around are stated there.
    - Division by zero.  What a division by zero produces depends on where
      the division happens: a NumPy scalar division yields [nan] or [inf]
      together with a warning ([np_true_divide]), a division of Python
      numbers raises [ZeroDivisionError] ([py_div]).
    - Exceptions.  A Python function that may raise returns a [result];
      the exception names are Python's.
    - Dictionaries and frames.  Python dictionaries and pandas indexes keep
      insertion order, and that order is observable here (it is the order
      of the rows that are sorted and scheduled), so they are association
      lists; [nodup_keys] says that a list is a well-formed dictionary.
    - Sorting.  [sort_values] is called with pandas' default algorithm,
      which promises the descending order of the values and nothing about
      rows of equal value.  [sort_desc] is one such arrangement;
      [sort_values_by] leaves the algorithm open. *)

From Stdlib Require Import Floats.PrimFloat Floats.FloatOps Floats.SpecFloat.
From Stdlib Require Import List String ZArith QArith Bool Permutation Sorted Lia Lqa.
Import ListNotations.
Open Scope string_scope.
Open Scope Q_scope.
Open Scope list_scope.

(* A decimal literal of type [float] denotes the nearest binary64 value, as
   it does in Python. *)
Set Warnings "-inexact-float".

(** ** Exceptions *)

Inductive exn : Set := IndexError | KeyError | ZeroDivisionError | OverflowError.

Inductive result (A : Type) : Type :=
| Ok (a : A)
| Raise (e : exn).
Arguments Ok {A} a.
Arguments Raise {A} e.

Definition bind {A B : Type} (c : result A) (k : A -> result B) : result B :=
  match c with
  | Ok a => k a
  | Raise e => Raise e
  end.

Notation "x <- c ;; k" := (bind c (fun x => k))
  (at level 61, c at next level, right associativity).


(** ** Numbers with the special values of binary64 *)

Inductive num : Set :=
| Fin (q : Q)
| PInf
| NInf
| NaN.

Definition is_nan (x : num) : bool :=
  match x with NaN => true | _ => false end.


Definition Qltb (a b : Q) : bool := negb (Qle_bool b a).

(** [a < b]; every comparison with [nan] is false. *)
Definition num_ltb (a b : num) : bool :=
  match a, b with
  | NaN, _ | _, NaN => false
  | Fin x, Fin y => Qltb x y
  | NInf, NInf => false
  | NInf, _ => true
  | _, PInf => match a with PInf => false | _ => true end
  | _, _ => false
  end.

(** [a <= b]; every comparison with [nan] is false. *)
Definition num_leb (a b : num) : bool :=
  match a, b with
  | NaN, _ | _, NaN => false
  | Fin x, Fin y => Qle_bool x y
  | NInf, _ => true
  | _, PInf => true
  | _, _ => false
  end.

Definition num_gtb (a b : num) : bool := num_ltb b a.

Definition sign_inf (positive : bool) : num := if positive then PInf else NInf.

Definition num_add (a b : num) : num :=
  match a, b with
  | NaN, _ | _, NaN => NaN
  | Fin x, Fin y => Fin (x + y)
  | PInf, NInf | NInf, PInf => NaN
  | PInf, _ | _, PInf => PInf
  | NInf, _ | _, NInf => NInf
  end.

Definition num_mul (a b : num) : num :=
  match a, b with
  | NaN, _ | _, NaN => NaN
  | Fin x, Fin y => Fin (x * y)
  | Fin x, PInf | PInf, Fin x =>
      if Qeq_bool x 0 then NaN else sign_inf (Qltb 0 x)
  | Fin x, NInf | NInf, Fin x =>
      if Qeq_bool x 0 then NaN else sign_inf (Qltb x 0)
  | PInf, PInf | NInf, NInf => PInf
  | PInf, NInf | NInf, PInf => NInf
  end.

(** NumPy's scalar [/]: a zero divisor gives [nan] (0/0) or an infinity and a
    [RuntimeWarning]; no exception is raised.  Otherwise the quotient, here
    the exact one. *)
Definition np_true_divide (a b : Q) : num :=
  if Qeq_bool b 0
  then if Qeq_bool a 0 then NaN else sign_inf (Qltb 0 a)
  else Fin (a / b).

(** Python's [/] on Python numbers: a zero divisor raises. *)
Definition py_div (a b : Q) : result Q :=
  if Qeq_bool b 0 then Raise ZeroDivisionError else Ok (a / b).

(** Python's [/] of a float that may be special by a Python integer. *)
Definition py_div_num (a : num) (b : Q) : result num :=
  if Qeq_bool b 0 then Raise ZeroDivisionError else Ok (num_mul a (Fin (/ b))).

(** Python's [sum] of rationals and of floats; both start from [0]. *)
Definition sumQ (l : list Q) : Q := fold_left Qplus l 0.
Definition sum_num (l : list num) : num := fold_left num_add l (Fin 0).

(** Python's [min(a, b)]: [b] when [b < a], otherwise [a]. *)
Definition py_min (a b : Q) : Q := if Qltb b a then b else a.

(** ** Insertion-ordered dictionaries *)

Definition dict (V : Type) : Type := list (string * V).

Definition keys {V : Type} (d : dict V) : list string := map fst d.
Definition values {V : Type} (d : dict V) : list V := map snd d.

Fixpoint mem (k : string) (l : list string) : bool :=
  match l with
  | [] => false
  | x :: l' => String.eqb x k || mem k l'
  end.

Fixpoint nodup_keys_list (l : list string) : bool :=
  match l with
  | [] => true
  | x :: l' => negb (mem x l') && nodup_keys_list l'
  end.

(** A list of pairs is a well-formed dictionary when no key occurs twice. *)
Definition nodup_keys {V : Type} (d : dict V) : bool := nodup_keys_list (keys d).

(** [d[k] = v]: replaces the value of a key that is present, in place, and
    appends a new key at the end. *)
Fixpoint dict_set {V : Type} (d : dict V) (k : string) (v : V) : dict V :=
  match d with
  | [] => [(k, v)]
  | (k', v') :: d' =>
      if String.eqb k' k then (k, v) :: d' else (k', v') :: dict_set d' k v
  end.

(** [dict(pairs)], which is what [Series.to_dict] does with a series. *)
Definition to_dict {V : Type} (pairs : list (string * V)) : dict V :=
  fold_left (fun d kv => dict_set d (fst kv) (snd kv)) pairs [].

(** ** Inputs *)

Module Pricing.
(** A row of the pricing frame. *)
Record t : Set := mk {
  Booking_Class : string;
  Base_Fare : Q;
  Peak_Price : Q;
  Off_Peak_Price : Q;
  Risk_Factor : Q
}.
End Pricing.

Definition pricing_table : Set := list Pricing.t.

(** [allocation]: booking class to seats. *)
Definition allocation : Type := dict Z.

(** ** [AdvancedRevenueAnalyzer] *)

Module Row.
(** A row of the frame returned by [analyze_revenue_potential]. *)
Record t : Set := mk {
  Seats : Z;
  Base_Revenue : Q;
  Peak_Revenue : Q;
  Off_Peak_Revenue : Q;
  Revenue_Range : Q;
  Risk_Factor : Q;
  Revenue_per_Seat : num
}.
End Row.

Definition revenue_table : Type := dict Row.t.

(** [pricing_df[pricing_df['Booking_Class'] == booking_class].iloc[0]]:
    a frame built from no record has no column ([KeyError]); [.iloc[0]] of an
    empty selection is out of bounds ([IndexError]). *)
Definition class_data (pricing_df : pricing_table) (booking_class : string)
  : result Pricing.t :=
  match pricing_df with
  | [] => Raise KeyError
  | _ =>
      match filter (fun r => String.eqb (Pricing.Booking_Class r) booking_class)
                   pricing_df with
      | [] => Raise IndexError
      | r :: _ => Ok r
      end
  end.

(** The body of the loop of [analyze_revenue_potential], lines 33-46. *)
Definition revenue_row (seats : Z) (class_data : Pricing.t) : Row.t :=
  let s := inject_Z seats in
  let optimal_revenue :=
    s * Pricing.Base_Fare class_data * (1 - Pricing.Risk_Factor class_data) in
  let peak_revenue :=
    s * Pricing.Peak_Price class_data * (1 - Pricing.Risk_Factor class_data * 0.8) in
  let off_peak_revenue :=
    s * Pricing.Off_Peak_Price class_data * (1 - Pricing.Risk_Factor class_data * 1.2) in
  {| Row.Seats := seats;
     Row.Base_Revenue := optimal_revenue;
     Row.Peak_Revenue := peak_revenue;
     Row.Off_Peak_Revenue := off_peak_revenue;
     Row.Revenue_Range := peak_revenue - off_peak_revenue;
     Row.Risk_Factor := Pricing.Risk_Factor class_data;
     Row.Revenue_per_Seat := np_true_divide optimal_revenue s |}.

(** [analyze_revenue_potential]: one row per item of the allocation, in the
    order of the allocation (the loop over [allocation.keys()] that reads
    [allocation[booking_class]] visits the items); the first class that
    cannot be looked up ends the call. *)
Fixpoint analyze_revenue_potential (allocation : allocation) (pricing : pricing_table)
  : result revenue_table :=
  match allocation with
  | [] => Ok []
  | (booking_class, seats) :: rest =>
      cd <- class_data pricing booking_class ;;
      revenue_analysis <- analyze_revenue_potential rest pricing ;;
      Ok ((booking_class, revenue_row seats cd) :: revenue_analysis)
  end.

(** The order of [sort_values('Revenue_per_Seat', ascending=False)]:
    [key_ge a b] when a row of key [a] may stand before a row of key [b].
    [nan] keys go last. *)
Definition key_ge (a b : num) : bool :=
  match a, b with
  | _, NaN => true
  | NaN, _ => false
  | _, _ => num_leb b a
  end.

Definition key_eqb (a b : num) : bool := key_ge a b && key_ge b a.

Definition sort_key (r : string * Row.t) : num := Row.Revenue_per_Seat (snd r).

(** One descending arrangement, by insertion: the inserted row comes from
    an earlier position than the rows of the list and is put before the rows
    of equal key. *)
Fixpoint insert_desc (x : string * Row.t) (l : revenue_table) : revenue_table :=
  match l with
  | [] => [x]
  | y :: l' =>
      if key_ge (sort_key x) (sort_key y) then x :: y :: l' else y :: insert_desc x l'
  end.

Fixpoint sort_desc (l : revenue_table) : revenue_table :=
  match l with
  | [] => []
  | x :: l' => insert_desc x (sort_desc l')
  end.

(** [revenue_analysis.sort_values('Revenue_per_Seat', ascending=False)].
    The frame of an empty allocation has no column, hence [KeyError].  The
    sort is given the values of that one column and orders row positions by
    them; the labels are never compared.  Where rows of equal value end up
    is left to the sorting algorithm (the default one is not stable);
    [sort_desc] takes them in the order of the frame, which is one of the
    arrangements allowed. *)
Definition sort_values (revenue_analysis : revenue_table) : result revenue_table :=
  match revenue_analysis with
  | [] => Raise KeyError
  | _ => Ok (sort_desc revenue_analysis)
  end.

(** [revenue_analysis.loc[booking_class]] *)
Definition loc (revenue_analysis : revenue_table) (booking_class : string)
  : result Row.t :=
  match find (fun p => String.eqb (fst p) booking_class) revenue_analysis with
  | Some p => Ok (snd p)
  | None => Raise KeyError
  end.

Record time_slots : Set := mk_slots {
  Morning_Peak : list string;
  Midday : list string;
  Evening_Peak : list string;
  Off_Peak : list string
}.

Definition empty_slots : time_slots := mk_slots [] [] [] [].

Definition peak_ratio (revenue_data : Row.t) : num :=
  np_true_divide (Row.Peak_Revenue revenue_data) (Row.Off_Peak_Revenue revenue_data).

(** The [if]/[elif]/[else] of lines 97-105; [total] is [len(sorted_classes)]. *)
Definition assign_slot (total : nat) (slots : time_slots) (booking_class : string)
  (peak_ratio : num) : time_slots :=
  if num_gtb peak_ratio (Fin 1.2) then
    if (List.length (Morning_Peak slots) <? total / 4)%nat then
      mk_slots (Morning_Peak slots ++ [booking_class]) (Midday slots)
               (Evening_Peak slots) (Off_Peak slots)
    else
      mk_slots (Morning_Peak slots) (Midday slots)
               (Evening_Peak slots ++ [booking_class]) (Off_Peak slots)
  else if num_gtb peak_ratio (Fin 1.1) then
    mk_slots (Morning_Peak slots) (Midday slots ++ [booking_class])
             (Evening_Peak slots) (Off_Peak slots)
  else
    mk_slots (Morning_Peak slots) (Midday slots)
             (Evening_Peak slots) (Off_Peak slots ++ [booking_class]).

(** The [for] loop of lines 93-105 over [sorted_classes.index]. *)
Fixpoint schedule_loop (revenue_analysis : revenue_table) (total : nat)
  (index : list string) (slots : time_slots) : result time_slots :=
  match index with
  | [] => Ok slots
  | booking_class :: rest =>
      revenue_data <- loc revenue_analysis booking_class ;;
      schedule_loop revenue_analysis total rest
        (assign_slot total slots booking_class (peak_ratio revenue_data))
  end.

Definition optimize_peak_scheduling (allocation : allocation) (pricing : pricing_table)
  : result time_slots :=
  revenue_analysis <- analyze_revenue_potential allocation pricing ;;
  sorted_classes <- sort_values revenue_analysis ;;
  schedule_loop revenue_analysis (List.length sorted_classes) (keys sorted_classes)
    empty_slots.

(** [sort_values] and [optimize_peak_scheduling] with the sorting algorithm
    left open: [sort] arranges the rows of a frame that has at least one
    row.  [optimize_peak_scheduling] is the instance at [sort_desc]. *)
Definition sort_values_by (sort : revenue_table -> revenue_table)
  (revenue_analysis : revenue_table) : result revenue_table :=
  match revenue_analysis with
  | [] => Raise KeyError
  | _ => Ok (sort revenue_analysis)
  end.

Definition optimize_peak_scheduling_by (sort : revenue_table -> revenue_table)
  (allocation : allocation) (pricing : pricing_table) : result time_slots :=
  revenue_analysis <- analyze_revenue_potential allocation pricing ;;
  sorted_classes <- sort_values_by sort revenue_analysis ;;
  schedule_loop revenue_analysis (List.length sorted_classes) (keys sorted_classes)
    empty_slots.

Module Feature.
(** A row of [class_features] in [suggest_class_consolidation]. *)
Record t : Set := mk {
  Booking_Class : string;
  Base_Fare : Q;
  Risk_Factor : Q;
  Allocated_Seats : Z
}.
End Feature.


(** ** [QuantitativeTargets] *)

Definition sumZ (l : list Z) : Z := fold_left Z.add l 0%Z.

Definition len {A : Type} (l : list A) : Q := inject_Z (Z.of_nat (List.length l)).

(** The column [revenue_analysis['Base_Revenue']]. *)
Definition base_revenues (revenue_analysis : revenue_table) : list Q :=
  map (fun p => Row.Base_Revenue (snd p)) revenue_analysis.

Record current_metrics : Type := mk_current {
  total_revenue : Q;
  avg_revenue_per_seat : Q;
  class_performance : dict num;
  risk_rates : dict Q;
  current_occupancy : Q
}.

(** [self.pricing.set_index('Booking_Class')['Risk_Factor'].to_dict()]: the
    risk rate of each priced class; its length is the number of priced
    classes. *)
Definition priced_risk_rates (pricing : pricing_table) : dict Q :=
  to_dict (map (fun r => (Pricing.Booking_Class r, Pricing.Risk_Factor r)) pricing).

(** [analyze_current_performance], lines 39-49.  A frame without rows has no
    column either, hence [KeyError]; the division by the allocated seats is a
    division of Python numbers; the capacity of 400 seats is the source's. *)
Definition analyze_current_performance (revenue_analysis : revenue_table)
  (allocation : allocation) (pricing : pricing_table) : result current_metrics :=
  match revenue_analysis with
  | [] => Raise KeyError
  | _ =>
      let base := base_revenues revenue_analysis in
      avg <- py_div (sumQ base) (inject_Z (sumZ (values allocation))) ;;
      match pricing with
      | [] => Raise KeyError
      | _ =>
          Ok {| total_revenue := sumQ base;
                avg_revenue_per_seat := avg;
                class_performance :=
                  to_dict (map (fun p => (fst p, Row.Revenue_per_Seat (snd p)))
                               revenue_analysis);
                risk_rates := priced_risk_rates pricing;
                current_occupancy := inject_Z (sumZ (values allocation)) / 400 |}
      end
  end.

Record key_metrics : Set := mk_key_metrics {
  current_rev_per_seat : Q;
  target_rev_per_seat : Q;
  improvement_percentage : string
}.

Record overall_targets : Set := mk_overall {
  current_daily_revenue : Q;
  target_daily_revenue : Q;
  revenue_improvement : Q;
  target_revenue_per_seat : Q;
  timeframe : string;
  overall_key_metrics : key_metrics
}.

(** [_set_overall_targets], lines 51-64. *)
Definition _set_overall_targets (current : current_metrics) : overall_targets :=
  {| current_daily_revenue := total_revenue current;
     target_daily_revenue := total_revenue current * 1.15;
     revenue_improvement := total_revenue current * 0.15;
     target_revenue_per_seat := avg_revenue_per_seat current * 1.15;
     timeframe := "Next 6 months";
     overall_key_metrics :=
       {| current_rev_per_seat := avg_revenue_per_seat current;
          target_rev_per_seat := avg_revenue_per_seat current * 1.15;
          improvement_percentage := "15%" |} |}.

(** [_get_class_actions], lines 164-186: a static table. *)
Definition _get_class_actions (class_type : string) : result (list string) :=
  if String.eqb class_type "premium" then
    Ok [ "Increase base fare by 10-15% during peak hours";
         "Implement loyalty program benefits";
         "Add premium services";
         "Reduce risk rate to 5%" ]
  else if String.eqb class_type "mid_tier" then
    Ok [ "Optimize pricing with 5-10% increases";
         "Implement flexible booking conditions";
         "Target 85% occupancy rate";
         "Reduce risk rate to 10%" ]
  else if String.eqb class_type "economy" then
    Ok [ "Dynamic pricing based on demand";
         "Implement advance purchase discounts";
         "Target 80% occupancy rate";
         "Manage risk rate to 15%" ]
  else Raise KeyError.

Record class_target : Type := mk_class_target {
  classes : list string;
  current_average : num;
  target_increase : string;
  target_revenue : dict num;
  suggested_actions : list string
}.

Definition improvement_target (class_type : string) : Q :=
  if String.eqb class_type "premium" then 0.20
  else if String.eqb class_type "mid_tier" then 0.15
  else 0.10.

(** The text of [improvement_target*100] followed by a percent sign, for the
    three values it takes. *)
Definition format_target_increase (class_type : string) : string :=
  if String.eqb class_type "premium" then "20.0%"
  else if String.eqb class_type "mid_tier" then "15.0%"
  else "10.0%".

(** The three yield tiers of [_set_class_targets], lines 71-76.  The
    comparisons are Python's, so a class whose revenue per seat is [nan]
    belongs to no tier. *)
Definition high_yield (current : current_metrics) : dict num :=
  filter (fun kv => num_gtb (snd kv) (Fin (avg_revenue_per_seat current * 1.2)))
         (class_performance current).

Definition mid_yield (current : current_metrics) : dict num :=
  filter (fun kv =>
            num_leb (Fin (avg_revenue_per_seat current * 0.8)) (snd kv)
            && num_leb (snd kv) (Fin (avg_revenue_per_seat current * 1.2)))
         (class_performance current).

Definition low_yield (current : current_metrics) : dict num :=
  filter (fun kv => num_ltb (snd kv) (Fin (avg_revenue_per_seat current * 0.8)))
         (class_performance current).

(** The dictionary built for one tier, lines 85-92. *)
Definition class_target_of (class_type : string) (classes : dict num)
  : result class_target :=
  current_average <- py_div_num (sum_num (values classes)) (len classes) ;;
  actions <- _get_class_actions class_type ;;
  Ok {| classes := keys classes;
        current_average := current_average;
        target_increase := format_target_increase class_type;
        target_revenue :=
          map (fun kv => (fst kv, num_mul (snd kv) (Fin (1 + improvement_target class_type))))
              classes;
        suggested_actions := actions |}.

(** The [for] loop of lines 79-92. *)
Fixpoint class_targets_loop (groups : list (string * dict num))
  (class_targets : dict class_target) : result (dict class_target) :=
  match groups with
  | [] => Ok class_targets
  | (class_type, classes) :: rest =>
      t <- class_target_of class_type classes ;;
      class_targets_loop rest (dict_set class_targets class_type t)
  end.

(** [_set_class_targets], lines 66-94. *)
Definition _set_class_targets (current : current_metrics) : result (dict class_target) :=
  class_targets_loop
    [ ("premium", high_yield current);
      ("mid_tier", mid_yield current);
      ("economy", low_yield current) ]
    [].

Record time_target : Set := mk_time_target {
  time_target_occupancy : Q;
  target_premium_mix : Q;
  revenue_premium : Q
}.

(** [_set_time_targets], lines 96-119: a constant table. *)
Definition _set_time_targets (current : current_metrics) : dict time_target :=
  [ ("peak_morning", mk_time_target 0.95 0.40 1.25);
    ("midday", mk_time_target 0.85 0.30 1.15);
    ("evening_peak", mk_time_target 0.90 0.35 1.20);
    ("off_peak", mk_time_target 0.75 0.25 1.10) ].

Record risk_group : Set := mk_risk_group {
  risk_current : Q;
  risk_target : Q
}.

Record risk_targets : Set := mk_risk_targets {
  current_avg_risk : Q;
  target_avg_risk : Q;
  risk_premium : risk_group;
  risk_mid_tier : risk_group;
  risk_economy : risk_group
}.

Definition premium_codes : list string := ["J"; "Y"].
Definition mid_tier_codes : list string := ["C"; "B"; "D"; "W"; "H"].
Definition listed_codes : list string := ["J"; "Y"; "C"; "B"; "D"; "W"; "H"].

(** [sum(v for k, v in d.items() if keep(k))] *)
Definition sum_where (keep : string -> bool) (d : dict Q) : Q :=
  sumQ (values (filter (fun kv => keep (fst kv)) d)).

(** [_set_risk_targets], lines 121-146. *)
Definition _set_risk_targets (current : current_metrics) : result risk_targets :=
  let rates := risk_rates current in
  avg_risk <- py_div (sumQ (values rates)) (len rates) ;;
  premium <- py_div (sum_where (fun k => mem k premium_codes) rates) 2 ;;
  mid_tier <- py_div (sum_where (fun k => mem k mid_tier_codes) rates) 5 ;;
  economy <- py_div (sum_where (fun k => negb (mem k listed_codes)) rates)
                    (len rates - 7) ;;
  Ok {| current_avg_risk := avg_risk;
        target_avg_risk := avg_risk * 0.85;
        risk_premium := mk_risk_group premium 0.05;
        risk_mid_tier := mk_risk_group mid_tier 0.10;
        risk_economy := mk_risk_group economy 0.15 |}.

Record occupancy_targets : Set := mk_occupancy {
  occ_current_occupancy : Q;
  target_occupancy : Q;
  occ_premium : Q;
  occ_mid_tier : Q;
  occ_economy : Q;
  overbooking_peak : Q;
  overbooking_off_peak : Q
}.

(** [_set_occupancy_targets], lines 148-162. *)
Definition _set_occupancy_targets (current : current_metrics) : occupancy_targets :=
  {| occ_current_occupancy := current_occupancy current;
     target_occupancy := py_min (current_occupancy current * 1.10) 0.95;
     occ_premium := 0.90;
     occ_mid_tier := 0.85;
     occ_economy := 0.80;
     overbooking_peak := 1.15;
     overbooking_off_peak := 1.10 |}.

Record revenue_targets : Type := mk_revenue_targets {
  overall : overall_targets;
  by_class : dict class_target;
  by_time : dict time_target
}.

Record targets : Type := mk_targets {
  targets_revenue : revenue_targets;
  targets_risk : risk_targets;
  targets_occupancy : occupancy_targets
}.

(** [calculate_revenue_targets], lines 23-37; the entries of the dictionary
    are evaluated in the order in which they are written. *)
Definition calculate_revenue_targets (revenue_analysis : revenue_table)
  (allocation : allocation) (pricing : pricing_table) : result targets :=
  current_metrics <- analyze_current_performance revenue_analysis allocation pricing ;;
  let overall := _set_overall_targets current_metrics in
  by_class <- _set_class_targets current_metrics ;;
  let by_time := _set_time_targets current_metrics in
  risk <- _set_risk_targets current_metrics ;;
  Ok {| targets_revenue :=
          {| overall := overall; by_class := by_class; by_time := by_time |};
        targets_risk := risk;
        targets_occupancy := _set_occupancy_targets current_metrics |}.

(** The table and the targets of one run: the frame of
    [analyze_revenue_potential] handed to [QuantitativeTargets]. *)
Definition revenue_targets_of (allocation : allocation) (pricing : pricing_table)
  : result targets :=
  revenue_analysis <- analyze_revenue_potential allocation pricing ;;
  calculate_revenue_targets revenue_analysis allocation pricing.

(** ** The arithmetic of the machine *)

(** The range of [int64], and the value an [int64] operation keeps of an
    exact result: NumPy wraps around modulo 2^64 (with a [RuntimeWarning]). *)
Definition in_int64 (z : Z) : bool := ((- 2 ^ 63 <=? z) && (z <? 2 ^ 63))%Z.

Definition wrap64 (z : Z) : Z := ((z + 2 ^ 63) mod 2 ^ 64 - 2 ^ 63)%Z.

(** Every seat count of the allocation fits in [int64]. *)
Definition seats_in_int64 (alloc : allocation) : bool :=
  forallb (fun kv => in_int64 (snd kv)) alloc.

Module Binary64.

(** The binary64 value nearest to an integer, ties to even; an infinity when
    the integer is beyond the range. *)
Definition of_Z (z : Z) : float :=
  SF2Prim (binary_normalize prec emax z 0 false).

(** [float(n)] of a Python integer: the nearest binary64 value, and
    [OverflowError] where that would be an infinity, which is from
    2^1024 - 2^970 on, half way between the largest binary64 value and
    2^1024. *)
Definition py_float (n : Z) : result float :=
  if (Z.abs n <? 2 ^ 1024 - 2 ^ 970)%Z then Ok (of_Z n) else Raise OverflowError.

(** A NumPy scalar read from the pricing frame: [np.int64] from a column of
    Python integers, [np.float64] from a column with a float.  [Int64 z]
    stands for an [np.int64] when [z] is in the range of [int64]. *)
Inductive scalar : Set :=
| Int64 (z : Z)
| Float64 (f : float).

Definition to_float (x : scalar) : float :=
  match x with
  | Int64 z => of_Z z
  | Float64 f => f
  end.

(** [n * x] for a Python integer [n]: an [int64] product when [x] is an
    [np.int64], and then [n] itself has to fit in [int64]; a binary64 product
    otherwise. *)
Definition int_mul (n : Z) (x : scalar) : result scalar :=
  match x with
  | Int64 z => if in_int64 n then Ok (Int64 (wrap64 (n * z))) else Raise OverflowError
  | Float64 f => nf <- py_float n ;; Ok (Float64 (PrimFloat.mul nf f))
  end.

(** [1 - x] *)
Definition one_minus (x : scalar) : scalar :=
  match x with
  | Int64 z => Int64 (wrap64 (1 - z))
  | Float64 f => Float64 (PrimFloat.sub 1 f)
  end.

(** [a * b] of two NumPy scalars. *)
Definition np_mul (a b : scalar) : scalar :=
  match a, b with
  | Int64 x, Int64 y => Int64 (wrap64 (x * y))
  | _, _ => Float64 (PrimFloat.mul (to_float a) (to_float b))
  end.

(** [a / n] for a Python integer [n]: NumPy's true division, in binary64
    whatever the type of [a]; a zero divisor gives [nan] or an infinity. *)
Definition true_divide_int (a : scalar) (n : Z) : result float :=
  match a with
  | Int64 z =>
      if in_int64 n then Ok (PrimFloat.div (of_Z z) (of_Z n)) else Raise OverflowError
  | Float64 f => nf <- py_float n ;; Ok (PrimFloat.div f nf)
  end.

(** A row of the pricing frame. *)
Record pricing : Set := mk_pricing {
  Booking_Class : string;
  Base_Fare : scalar;
  Peak_Price : scalar;
  Off_Peak_Price : scalar;
  Risk_Factor : scalar
}.

(** The values stored for one class, lines 38-46. *)
Record row : Set := mk_row {
  Seats : Z;
  Base_Revenue : scalar;
  Peak_Revenue : float;
  Off_Peak_Revenue : float;
  Revenue_Range : float;
  Row_Risk_Factor : scalar;
  Revenue_per_Seat : float
}.

(** The body of the loop of [analyze_revenue_potential], lines 33-46, in the
    order in which Python evaluates it. *)
Definition revenue_row (seats : Z) (class_data : pricing) : result row :=
  seat_fare <- int_mul seats (Base_Fare class_data) ;;
  let optimal_revenue := np_mul seat_fare (one_minus (Risk_Factor class_data)) in
  seat_peak <- int_mul seats (Peak_Price class_data) ;;
  let peak_revenue :=
    PrimFloat.mul (to_float seat_peak)
      (PrimFloat.sub 1 (PrimFloat.mul (to_float (Risk_Factor class_data)) 0.8)) in
  seat_off_peak <- int_mul seats (Off_Peak_Price class_data) ;;
  let off_peak_revenue :=
    PrimFloat.mul (to_float seat_off_peak)
      (PrimFloat.sub 1 (PrimFloat.mul (to_float (Risk_Factor class_data)) 1.2)) in
  per_seat <- true_divide_int optimal_revenue seats ;;
  Ok {| Seats := seats;
        Base_Revenue := optimal_revenue;
        Peak_Revenue := peak_revenue;
        Off_Peak_Revenue := off_peak_revenue;
        Revenue_Range := PrimFloat.sub peak_revenue off_peak_revenue;
        Row_Risk_Factor := Risk_Factor class_data;
        Revenue_per_Seat := per_seat |}.

(** The lookup of a class, as [class_data] above. *)
Definition class_data (pricing_df : list pricing) (booking_class : string)
  : result pricing :=
  match pricing_df with
  | [] => Raise KeyError
  | _ =>
      match filter (fun r => String.eqb (Booking_Class r) booking_class) pricing_df with
      | [] => Raise IndexError
      | r :: _ => Ok r
      end
  end.

(** The loop of [analyze_revenue_potential]: the classes are looked up and
    computed one after the other, and the first failure ends the call. *)
Fixpoint analyze_revenue_potential (allocation : allocation) (pricing_df : list pricing)
  : result (dict row) :=
  match allocation with
  | [] => Ok []
  | (booking_class, seats) :: rest =>
      cd <- class_data pricing_df booking_class ;;
      r <- revenue_row seats cd ;;
      revenue_analysis <- analyze_revenue_potential rest pricing_df ;;
      Ok ((booking_class, r) :: revenue_analysis)
  end.

(** Python's [sum] of the column [Base_Revenue] of the frame, whose values
    are binary64: the additions are made from left to right, from [0]. *)
Definition total_revenue (revenue_analysis : dict row) : float :=
  fold_left PrimFloat.add
    (map (fun p => to_float (Base_Revenue (snd p))) revenue_analysis) 0%float.

(** [current['total_revenue'] * 1.15], line 55. *)
Definition target_daily_revenue (total : float) : float :=
  PrimFloat.mul total 1.15.

(** The scenario of the specification: integer prices, risks that are
    floats. *)
Definition scenario_pricing : list pricing :=
  [ mk_pricing "Y" (Int64 200) (Int64 260) (Int64 150) (Float64 0.1);
    mk_pricing "J" (Int64 500) (Int64 650) (Int64 400) (Float64 0.05) ].

End Binary64.

(** The products of a class that [int64] has to hold when the prices are
    integers: the seats, the seats times each price, and the base revenue. *)
Definition in_int64_range (q : Q) : bool :=
  Qle_bool (inject_Z (- 2 ^ 63)) q && Qltb q (inject_Z (2 ^ 63)).

Definition int64_safe (seats : Z) (cd : Pricing.t) : bool :=
  let s := inject_Z seats in
  in_int64_range s
  && in_int64_range (s * Pricing.Base_Fare cd)
  && in_int64_range (s * Pricing.Base_Fare cd * (1 - Pricing.Risk_Factor cd))
  && in_int64_range (s * Pricing.Peak_Price cd)
  && in_int64_range (s * Pricing.Off_Peak_Price cd).

(** ** Vocabulary of the statements *)

(** The pure reading of the scheduling loop: the slots after the rows [l]
    have been visited in order, starting from [slots]. *)
Definition visit (total : nat) (slots : time_slots) (p : string * Row.t) : time_slots :=
  assign_slot total slots (fst p) (peak_ratio (snd p)).

Definition slots_after (total : nat) (l : revenue_table) (slots : time_slots)
  : time_slots :=
  fold_left (visit total) l slots.

(** The three cases of the specification, as tests on one row, and the test
    of the [else] branch of the loop. *)
Definition ratio_high (p : string * Row.t) : bool :=
  num_gtb (peak_ratio (snd p)) (Fin 1.2).

Definition ratio_mid (p : string * Row.t) : bool :=
  num_gtb (peak_ratio (snd p)) (Fin 1.1) && num_leb (peak_ratio (snd p)) (Fin 1.2).

Definition ratio_low (p : string * Row.t) : bool :=
  num_leb (peak_ratio (snd p)) (Fin 1.1).

Definition ratio_rest (p : string * Row.t) : bool :=
  negb (num_gtb (peak_ratio (snd p)) (Fin 1.1)).

Definition all_slots (slots : time_slots) : list string :=
  Morning_Peak slots ++ Midday slots ++ Evening_Peak slots ++ Off_Peak slots.

(** [row_ge x y]: row [x] may stand before row [y] in the sorted frame. *)
Definition row_ge (x y : string * Row.t) : Prop :=
  key_ge (sort_key x) (sort_key y) = true.

(** The order the specification asks for among classes of equal revenue per
    seat: identifiers ascending. *)
Fixpoint ties_ascending (l : revenue_table) : bool :=
  match l with
  | a :: (b :: _) as l' =>
      (negb (key_eqb (sort_key a) (sort_key b)) || String.leb (fst a) (fst b))
      && ties_ascending l'
  | _ => true
  end.

(** The same frame under other row labels. *)
Definition relabel (f : string -> string) (t : revenue_table) : revenue_table :=
  map (fun p => (f (fst p), snd p)) t.

(** Every allocated class has a pricing record. *)
Definition all_priced (alloc : allocation) (pricing : pricing_table) : Prop :=
  forall c, In c (keys alloc) ->
            exists cd, In cd pricing /\ Pricing.Booking_Class cd = c.

(** What [sort_values] promises of its sorting algorithm: the rows of the
    frame, in descending order of the key. *)
Definition descending_sort (sort : revenue_table -> revenue_table) : Prop :=
  forall t, Permutation t (sort t) /\ StronglySorted row_ge (sort t).

(** What the sorting algorithm cannot see: the labels of the rows. *)
Definition label_blind (sort : revenue_table -> revenue_table) : Prop :=
  forall (f : string -> string) t, sort (relabel f t) = relabel f (sort t).

(** ** Inputs of the examples *)

(** The scenario of the specification, and its frame as
    [analyze_revenue_potential] returns it. *)
Definition scenario_allocation : allocation := [("Y", 100%Z); ("J", 20%Z)].

Definition scenario_pricing : pricing_table :=
  [ Pricing.mk "Y" 200 260 150 0.1;
    Pricing.mk "J" 500 650 400 0.05 ].

Definition scenario_table : revenue_table :=
  [ ("Y", revenue_row 100 (Pricing.mk "Y" 200 260 150 0.1));
    ("J", revenue_row 20 (Pricing.mk "J" 500 650 400 0.05)) ].

(** Two classes of equal revenue per seat, for the order of ties. *)
Definition tie_allocation : allocation := [("Y", 10%Z); ("J", 10%Z)].

Definition tie_pricing : pricing_table :=
  [ Pricing.mk "Y" 200 260 150 0.1;
    Pricing.mk "J" 200 260 150 0.1 ].

(** The same two classes, allocated in the other order. *)
Definition tie_allocation_swapped : allocation := [("J", 10%Z); ("Y", 10%Z)].


(** A class with seats and a class without. *)
Definition idle_allocation : allocation := [("Y", 10%Z); ("J", 0%Z)].

(** Three classes, one in each yield tier; none of them has a code of the
    middle group of the risk targets. *)
Definition three_tier_allocation : allocation :=
  [("Y", 10%Z); ("M", 10%Z); ("Q", 10%Z)].

Definition three_tier_pricing : pricing_table :=
  [ Pricing.mk "Y" 300 390 240 0.05;
    Pricing.mk "M" 200 260 150 0.1;
    Pricing.mk "Q" 100 130 90 0.2 ].

Definition three_tier_table : revenue_table :=
  [ ("Y", revenue_row 10 (Pricing.mk "Y" 300 390 240 0.05));
    ("M", revenue_row 10 (Pricing.mk "M" 200 260 150 0.1));
    ("Q", revenue_row 10 (Pricing.mk "Q" 100 130 90 0.2)) ].

(** Five classes, allocated in an order that is not the sorted one, with
    ratios in each of the three ranges. *)
Definition mixed_allocation : allocation :=
  [("Q", 10%Z); ("Y", 10%Z); ("J", 10%Z); ("M", 10%Z); ("C", 10%Z)].

Definition mixed_pricing : pricing_table :=
  [ Pricing.mk "J" 500 650 400 0.05;
    Pricing.mk "C" 400 520 300 0.1;
    Pricing.mk "Y" 300 330 300 0.1;
    Pricing.mk "M" 200 200 200 0.15;
    Pricing.mk "Q" 100 130 90 0.2 ].

(** ** Further vocabulary *)

(** [d.get(k)]: the value of a key, if the key is present. *)
Fixpoint dict_get {V : Type} (d : dict V) (k : string) : option V :=
  match d with
  | [] => None
  | (k', v) :: d' => if String.eqb k' k then Some v else dict_get d' k
  end.

(** The pricing records of one class, in the order of the frame. *)
Definition records_of (pricing : pricing_table) (c : string) : list Pricing.t :=
  filter (fun r => String.eqb (Pricing.Booking_Class r) c) pricing.

(** ** Basic facts *)

Section Results.
Context {A B : Type}.

Lemma bind_ok (c : result A) (k : A -> result B) (b : B) :
  bind c k = Ok b -> exists a, c = Ok a /\ k a = Ok b.
Proof.
  destruct c as [a | e]; simpl; intros H.
  - exists a; split; [reflexivity | exact H].
  - discriminate H.
Qed.

Lemma bind_raise (c : result A) (k : A -> result B) (e : exn) :
  bind c k = Raise e -> c = Raise e \/ exists a, c = Ok a /\ k a = Raise e.
Proof.
  destruct c as [a | e']; simpl; intros H.
  - right; exists a; split; [reflexivity | exact H].
  - left; inversion H; reflexivity.
Qed.
End Results.

Ltac inv_bind H :=
  let a := fresh "a" in
  let Ha := fresh "Ha" in
  apply bind_ok in H; destruct H as (a & Ha & H).

Lemma mem_In (k : string) (l : list string) : mem k l = true <-> In k l.
Proof.
  induction l as [| x l IH]; simpl.
  - split; [discriminate | tauto].
  - rewrite orb_true_iff, IH, String.eqb_eq. tauto.
Qed.

Lemma nodup_keys_list_NoDup (l : list string) : nodup_keys_list l = true <-> NoDup l.
Proof.
  induction l as [| x l IH]; simpl.
  - split; [constructor | reflexivity].
  - rewrite andb_true_iff, negb_true_iff, IH. split.
    + intros [Hm Hn]. constructor; [| exact Hn].
      intros Hin. apply mem_In in Hin. congruence.
    + intros Hn. inversion Hn as [| ? ? Hx Hl]; subst. split; [| exact Hl].
      destruct (mem x l) eqn:E; [| reflexivity].
      apply mem_In in E. contradiction.
Qed.

Lemma nodup_keys_NoDup {V : Type} (d : dict V) :
  nodup_keys d = true <-> NoDup (keys d).
Proof. apply nodup_keys_list_NoDup. Qed.

Lemma Qltb_lt (a b : Q) : Qltb a b = true <-> a < b.
Proof.
  unfold Qltb. rewrite negb_true_iff. split.
  - intros H. apply Qnot_le_lt. intros Hle.
    apply Qle_bool_iff in Hle. congruence.
  - intros H. destruct (Qle_bool b a) eqn:E; [| reflexivity].
    apply Qle_bool_iff in E. apply Qlt_not_le in H. contradiction.
Qed.

(** ** The revenue table *)

Lemma class_data_found (pricing : pricing_table) (c : string) (cd : Pricing.t) :
  class_data pricing c = Ok cd ->
  In cd pricing /\ Pricing.Booking_Class cd = c.
Proof.
  unfold class_data. destruct pricing as [| r0 pricing']; [discriminate |].
  set (l := r0 :: pricing').
  destruct (filter _ l) as [| r rs] eqn:E; [discriminate |].
  intros H; inversion H; subst r.
  assert (Hin : In cd (filter (fun r => String.eqb (Pricing.Booking_Class r) c) l))
    by (rewrite E; left; reflexivity).
  apply filter_In in Hin. destruct Hin as [Hin Heq].
  apply String.eqb_eq in Heq. split; assumption.
Qed.

Lemma class_data_absent (pricing : pricing_table) (c : string) :
  (forall cd, In cd pricing -> Pricing.Booking_Class cd <> c) ->
  class_data pricing c = Raise (match pricing with [] => KeyError | _ => IndexError end).
Proof.
  intros Habs. unfold class_data. destruct pricing as [| r0 pricing']; [reflexivity |].
  set (l := r0 :: pricing') in *.
  destruct (filter _ l) as [| r rs] eqn:E; [reflexivity |].
  assert (Hin : In r (filter (fun r => String.eqb (Pricing.Booking_Class r) c) l))
    by (rewrite E; left; reflexivity).
  apply filter_In in Hin. destruct Hin as [Hin Heq].
  apply String.eqb_eq in Heq. elim (Habs r Hin Heq).
Qed.

Lemma class_data_raise (pricing : pricing_table) (c : string) (e : exn) :
  class_data pricing c = Raise e ->
  e = match pricing with [] => KeyError | _ => IndexError end.
Proof.
  unfold class_data. destruct pricing as [| r0 pricing'].
  - intros H; inversion H; reflexivity.
  - destruct (filter _ _); intros H; inversion H; reflexivity.
Qed.

(** The rows of the table are the items of the allocation, in order. *)
Lemma analyze_rows (alloc : allocation) (pricing : pricing_table) (table : revenue_table) :
  analyze_revenue_potential alloc pricing = Ok table ->
  Forall2 (fun item entry =>
             fst entry = fst item /\
             exists cd, class_data pricing (fst item) = Ok cd /\
                        snd entry = revenue_row (snd item) cd)
          alloc table.
Proof.
  revert table. induction alloc as [| [c s] alloc IH]; simpl; intros table H.
  - inversion H; constructor.
  - inv_bind H. apply bind_ok in H. destruct H as (rest & Hrest & H).
    inversion H; subst table. constructor.
    + simpl. split; [reflexivity |]. exists a. split; [exact Ha | reflexivity].
    + apply IH. exact Hrest.
Qed.

Lemma analyze_keys (alloc : allocation) (pricing : pricing_table) (table : revenue_table) :
  analyze_revenue_potential alloc pricing = Ok table -> keys table = keys alloc.
Proof.
  intros H. apply analyze_rows in H.
  induction H as [| item entry alloc' table' [Hk _] _ IH]; simpl.
  - reflexivity.
  - rewrite Hk, IH. reflexivity.
Qed.

Lemma analyze_In_table (alloc : allocation) (pricing : pricing_table)
  (table : revenue_table) (c : string) (row : Row.t) :
  analyze_revenue_potential alloc pricing = Ok table ->
  In (c, row) table ->
  exists s cd, In (c, s) alloc /\ class_data pricing c = Ok cd /\ row = revenue_row s cd.
Proof.
  intros H. apply analyze_rows in H.
  induction H as [| [c' s'] [c1 row1] alloc' table' [Hk (cd & Hcd & Hrow)] _ IH];
    simpl in *; intros Hin.
  - contradiction.
  - destruct Hin as [Heq | Hin].
    + inversion Heq; subst. exists s', cd. auto.
    + destruct (IH Hin) as (s & cd' & Hs & Hc & Hr). exists s, cd'. auto.
Qed.

Lemma analyze_In_alloc (alloc : allocation) (pricing : pricing_table)
  (table : revenue_table) (c : string) (s : Z) :
  analyze_revenue_potential alloc pricing = Ok table ->
  In (c, s) alloc ->
  exists cd, class_data pricing c = Ok cd /\ In (c, revenue_row s cd) table.
Proof.
  intros H. apply analyze_rows in H.
  induction H as [| [c' s'] [c1 row1] alloc' table' [Hk (cd & Hcd & Hrow)] _ IH];
    simpl in *; intros Hin.
  - contradiction.
  - destruct Hin as [Heq | Hin].
    + inversion Heq; subst. exists cd. split; [exact Hcd | left; reflexivity].
    + destruct (IH Hin) as (cd' & Hc & Hr). exists cd'. auto.
Qed.

Lemma loc_In (table : revenue_table) (c : string) (row : Row.t) :
  NoDup (keys table) -> In (c, row) table -> loc table c = Ok row.
Proof.
  unfold loc. induction table as [| [c' row'] table IH]; simpl; intros Hnd Hin.
  - contradiction.
  - inversion Hnd as [| ? ? Hnotin Hnd']; subst.
    destruct Hin as [Heq | Hin].
    + inversion Heq; subst. rewrite String.eqb_refl. reflexivity.
    + destruct (String.eqb c' c) eqn:E.
      * apply String.eqb_eq in E; subst c'.
        elim Hnotin. change c with (fst (c, row)). apply in_map. exact Hin.
      * apply IH; assumption.
Qed.


(** ** The order of the sort *)

Lemma Qle_bool_total (x y : Q) : Qle_bool x y = true \/ Qle_bool y x = true.
Proof.
  destruct (Qlt_le_dec x y) as [H | H].
  - left. apply Qle_bool_iff. apply Qlt_le_weak. exact H.
  - right. apply Qle_bool_iff. exact H.
Qed.

Lemma Qle_bool_trans (x y z : Q) :
  Qle_bool x y = true -> Qle_bool y z = true -> Qle_bool x z = true.
Proof.
  rewrite !Qle_bool_iff. apply Qle_trans.
Qed.

Lemma key_ge_total (a b : num) : key_ge a b = true \/ key_ge b a = true.
Proof.
  destruct a as [x | | |], b as [y | | |]; simpl; auto.
  apply or_comm, Qle_bool_total.
Qed.

Lemma key_ge_trans (a b c : num) :
  key_ge a b = true -> key_ge b c = true -> key_ge a c = true.
Proof.
  destruct a as [x | | |], b as [y | | |], c as [z | | |]; simpl;
    try reflexivity; try discriminate; auto.
  intros H1 H2. exact (Qle_bool_trans _ _ _ H2 H1).
Qed.


Lemma insert_desc_perm (x : string * Row.t) (l : revenue_table) :
  Permutation (x :: l) (insert_desc x l).
Proof.
  induction l as [| y l IH]; simpl.
  - apply Permutation_refl.
  - destruct (key_ge (sort_key x) (sort_key y)).
    + apply Permutation_refl.
    + eapply perm_trans; [apply perm_swap |]. apply perm_skip. exact IH.
Qed.

Lemma sort_desc_perm (l : revenue_table) : Permutation l (sort_desc l).
Proof.
  induction l as [| x l IH]; simpl.
  - constructor.
  - eapply perm_trans; [apply perm_skip; exact IH | apply insert_desc_perm].
Qed.

Lemma insert_desc_hd (x y : string * Row.t) (l : revenue_table) :
  row_ge y x -> HdRel row_ge y l -> HdRel row_ge y (insert_desc x l).
Proof.
  intros Hyx Hhd. destruct l as [| z l]; simpl.
  - constructor. exact Hyx.
  - destruct (key_ge (sort_key x) (sort_key z)); constructor.
    + exact Hyx.
    + inversion Hhd; assumption.
Qed.

Lemma insert_desc_sorted (x : string * Row.t) (l : revenue_table) :
  Sorted row_ge l -> Sorted row_ge (insert_desc x l).
Proof.
  induction l as [| y l IH]; simpl; intros Hs.
  - constructor; constructor.
  - destruct (key_ge (sort_key x) (sort_key y)) eqn:E.
    + constructor; [exact Hs |]. constructor. exact E.
    + inversion Hs as [| ? ? Hs' Hhd]; subst. constructor.
      * apply IH. exact Hs'.
      * apply insert_desc_hd; [| exact Hhd].
        destruct (key_ge_total (sort_key x) (sort_key y)) as [H | H];
          [congruence | exact H].
Qed.

Lemma sort_desc_sorted (l : revenue_table) : StronglySorted row_ge (sort_desc l).
Proof.
  apply Sorted_StronglySorted.
  - intros x y z. unfold row_ge. apply key_ge_trans.
  - induction l as [| x l IH]; simpl.
    + constructor.
    + apply insert_desc_sorted. exact IH.
Qed.

(** Rows that a test [f] selects only among rows of equal key keep their
    relative order. *)
Lemma insert_desc_relabel (f : string -> string) (x : string * Row.t)
  (l : revenue_table) :
  insert_desc (f (fst x), snd x) (relabel f l) = relabel f (insert_desc x l).
Proof.
  induction l as [| y l IH]; cbn [relabel map insert_desc].
  - reflexivity.
  - change (sort_key (f (fst x), snd x)) with (sort_key x).
    change (sort_key (f (fst y), snd y)) with (sort_key y).
    destruct (key_ge (sort_key x) (sort_key y)).
    + reflexivity.
    + cbn [map]. f_equal. exact IH.
Qed.

Lemma sort_desc_relabel (f : string -> string) (l : revenue_table) :
  sort_desc (relabel f l) = relabel f (sort_desc l).
Proof.
  induction l as [| x l IH]; cbn [relabel map sort_desc].
  - reflexivity.
  - fold (relabel f l). rewrite IH. apply insert_desc_relabel.
Qed.

(** ** The scheduling loop *)

Lemma schedule_loop_slots_after (table : revenue_table) (total : nat)
  (l : revenue_table) (slots : time_slots) :
  (forall c row, In (c, row) l -> loc table c = Ok row) ->
  schedule_loop table total (keys l) slots = Ok (slots_after total l slots).
Proof.
  revert slots. induction l as [| [c row] l IH]; simpl; intros slots Hloc.
  - reflexivity.
  - rewrite (Hloc c row) by (left; reflexivity). simpl.
    apply IH. intros c' row' Hin. apply Hloc. right. exact Hin.
Qed.

Lemma slots_after_snoc (total : nat) (l : revenue_table) (x : string * Row.t)
  (slots : time_slots) :
  slots_after total (l ++ [x]) slots = visit total (slots_after total l slots) x.
Proof. unfold slots_after. rewrite fold_left_app. reflexivity. Qed.

Lemma ratio_mid_elif (p : string * Row.t) :
  ratio_mid p = negb (ratio_high p) && num_gtb (peak_ratio (snd p)) (Fin 1.1).
Proof.
  unfold ratio_mid, ratio_high, num_gtb.
  destruct (peak_ratio (snd p)) as [q | | |]; simpl; try reflexivity.
  unfold Qltb. rewrite negb_involutive. apply andb_comm.
Qed.

Lemma ratio_low_rest (p : string * Row.t) :
  ratio_rest p = ratio_low p || is_nan (peak_ratio (snd p)).
Proof.
  unfold ratio_rest, ratio_low, num_gtb.
  destruct (peak_ratio (snd p)) as [q | | |]; simpl; try reflexivity.
  unfold Qltb. rewrite negb_involutive, orb_false_r. reflexivity.
Qed.


Lemma firstn_snoc {A : Type} (k : nat) (l : list A) (x : A) :
  firstn k (l ++ [x]) = if (List.length l <? k)%nat then firstn k l ++ [x] else firstn k l.
Proof.
  rewrite firstn_app. destruct (Nat.ltb_spec (List.length l) k) as [H | H].
  - destruct (k - List.length l)%nat as [| m] eqn:E; [lia |]. simpl.
    rewrite firstn_nil. reflexivity.
  - replace (k - List.length l)%nat with 0%nat by lia. simpl. apply app_nil_r.
Qed.

Lemma skipn_snoc {A : Type} (k : nat) (l : list A) (x : A) :
  skipn k (l ++ [x]) = if (List.length l <? k)%nat then skipn k l else skipn k l ++ [x].
Proof.
  rewrite skipn_app. destruct (Nat.ltb_spec (List.length l) k) as [H | H].
  - destruct (k - List.length l)%nat as [| m] eqn:E; [lia |]. simpl.
    rewrite skipn_nil. apply app_nil_r.
  - replace (k - List.length l)%nat with 0%nat by lia. reflexivity.
Qed.

Lemma length_firstn_ltb {A : Type} (k : nat) (l : list A) :
  (List.length (firstn k l) <? k)%nat = (List.length l <? k)%nat.
Proof.
  rewrite length_firstn.
  destruct (Nat.ltb_spec (List.length l) k), (Nat.ltb_spec (Nat.min k (List.length l)) k);
    try reflexivity; lia.
Qed.

(** The loop in closed form: [Morning_Peak] takes the first [total / 4] rows
    of ratio above 1.2 and [Evening_Peak] the others. *)
Lemma slots_after_closed (total : nat) (l : revenue_table) :
  slots_after total l empty_slots =
  {| Morning_Peak := firstn (total / 4) (keys (filter ratio_high l));
     Midday := keys (filter ratio_mid l);
     Evening_Peak := skipn (total / 4) (keys (filter ratio_high l));
     Off_Peak := keys (filter ratio_rest l) |}.
Proof.
  induction l as [| x l IH] using rev_ind.
  - cbn. rewrite firstn_nil, skipn_nil. reflexivity.
  - rewrite slots_after_snoc, IH. unfold visit, assign_slot.
    cbn [Morning_Peak Midday Evening_Peak Off_Peak].
    generalize (total / 4)%nat; intros k.
    change (num_gtb (peak_ratio (snd x)) (Fin 1.2)) with (ratio_high x).
    unfold keys. rewrite !filter_app, !map_app. cbn [filter].
    rewrite (ratio_mid_elif x), length_firstn_ltb.
    change (ratio_rest x) with (negb (num_gtb (peak_ratio (snd x)) (Fin 1.1))).
    destruct (ratio_high x) eqn:Eh.
    + assert (Er : num_gtb (peak_ratio (snd x)) (Fin 1.1) = true).
      { unfold ratio_high, num_gtb in *.
        destruct (peak_ratio (snd x)) as [q | | |]; cbn in *;
          try discriminate; try reflexivity.
        apply Qltb_lt in Eh. apply Qltb_lt.
        eapply Qlt_trans; [| exact Eh]. reflexivity. }
      rewrite Er. cbn [negb andb map]. rewrite !app_nil_r.
      rewrite firstn_snoc, skipn_snoc.
      destruct (List.length (map fst (filter ratio_high l)) <? k)%nat; reflexivity.
    + cbn [negb andb map]. rewrite !app_nil_r.
      destruct (num_gtb (peak_ratio (snd x)) (Fin 1.1)); cbn [negb map];
        rewrite ?app_nil_r; reflexivity.
Qed.

(** ** Facts of the machine arithmetic *)

Lemma in_int64_bounds (z : Z) :
  in_int64 z = true <-> (- 2 ^ 63 <= z < 2 ^ 63)%Z.
Proof.
  unfold in_int64. rewrite andb_true_iff, Z.leb_le, Z.ltb_lt. reflexivity.
Qed.

(** An exact result that fits is kept as it is. *)
Lemma wrap64_id (z : Z) : in_int64 z = true -> wrap64 z = z.
Proof.
  rewrite in_int64_bounds. unfold wrap64. intros H.
  change (2 ^ 64)%Z with (2 ^ 63 + 2 ^ 63)%Z.
  generalize dependent (2 ^ 63)%Z. intros b H.
  rewrite Z.mod_small; lia.
Qed.

(** A Python integer that fits in [int64] has a binary64 value. *)
Lemma py_float_int64 (n : Z) :
  in_int64 n = true -> Binary64.py_float n = Ok (Binary64.of_Z n).
Proof.
  rewrite in_int64_bounds. intros H. unfold Binary64.py_float.
  assert (Hb : (2 ^ 63 < 2 ^ 1024 - 2 ^ 970)%Z) by (vm_compute; reflexivity).
  assert (Hlt : (Z.abs n <? 2 ^ 1024 - 2 ^ 970)%Z = true).
  { apply Z.ltb_lt.
    generalize dependent (2 ^ 1024 - 2 ^ 970)%Z. intros big.
    generalize dependent (2 ^ 63)%Z. intros b. lia. }
  rewrite Hlt. reflexivity.
Qed.

(** The bound of [py_float] is where the rounding of [of_Z] overflows. *)
Lemma py_float_bound :
  PrimFloat.is_infinity (Binary64.of_Z (2 ^ 1024 - 2 ^ 970 - 1)) = false /\
  PrimFloat.is_infinity (Binary64.of_Z (2 ^ 1024 - 2 ^ 970)) = true /\
  PrimFloat.is_infinity (Binary64.of_Z (- (2 ^ 1024 - 2 ^ 970 - 1))) = false /\
  PrimFloat.is_infinity (Binary64.of_Z (- (2 ^ 1024 - 2 ^ 970))) = true.
Proof. repeat split; vm_compute; reflexivity. Qed.

(** With seats that fit in [int64] the loop body raises nothing. *)
Lemma machine_row_total (seats : Z) (cd : Binary64.pricing) :
  in_int64 seats = true -> exists r, Binary64.revenue_row seats cd = Ok r.
Proof.
  intros Hs. unfold Binary64.revenue_row.
  assert (Hmul : forall x, exists y, Binary64.int_mul seats x = Ok y).
  { intros [z | f]; unfold Binary64.int_mul.
    - rewrite Hs. eauto.
    - rewrite (py_float_int64 _ Hs). cbn [bind]. eauto. }
  destruct (Hmul (Binary64.Base_Fare cd)) as (y1 & ->). cbn [bind].
  destruct (Hmul (Binary64.Peak_Price cd)) as (y2 & ->). cbn [bind].
  destruct (Hmul (Binary64.Off_Peak_Price cd)) as (y3 & ->). cbn [bind].
  assert (Hdiv : forall a, exists q, Binary64.true_divide_int a seats = Ok q).
  { intros [z | f]; unfold Binary64.true_divide_int.
    - rewrite Hs. eauto.
    - rewrite (py_float_int64 _ Hs). cbn [bind]. eauto. }
  destruct (Hdiv (Binary64.np_mul y1 (Binary64.one_minus (Binary64.Risk_Factor cd))))
    as (q & ->).
  cbn [bind]. eauto.
Qed.

(** ** The revenue projection *)

(** C1, as the code has it.  For every class [c] of the allocation, with [s]
    seats and pricing record [cd], whose products with the seats stay within
    [int64], the table returned by [analyze_revenue_potential] has a row for
    [c] with [Base_Revenue = s * base_fare * (1 - risk)],
    [Peak_Revenue = s * peak_price * (1 - 0.8 * risk)],
    [Off_Peak_Revenue = s * off_peak_price * (1 - 1.2 * risk)] and
    [Revenue_Range = Peak_Revenue - Off_Peak_Revenue].  On the machine, for
    integer prices and a binary64 risk: when the seats and the three products
    of the seats with the prices fit in [int64], the row holds these
    formulas evaluated from left to right, the integer products exact and
    the rest in binary64. *)
Theorem revenue_table_formulas :
  (forall (alloc : allocation) (pricing : pricing_table) (table : revenue_table)
          (c : string) (s : Z),
     nodup_keys alloc = true ->
     analyze_revenue_potential alloc pricing = Ok table ->
     In (c, s) alloc ->
     (forall cd, class_data pricing c = Ok cd -> int64_safe s cd = true) ->
     exists cd row,
       class_data pricing c = Ok cd /\ In cd pricing /\ Pricing.Booking_Class cd = c /\
       loc table c = Ok row /\
       Row.Seats row = s /\
       Row.Base_Revenue row
         == inject_Z s * Pricing.Base_Fare cd * (1 - Pricing.Risk_Factor cd) /\
       Row.Peak_Revenue row
         == inject_Z s * Pricing.Peak_Price cd * (1 - 0.8 * Pricing.Risk_Factor cd) /\
       Row.Off_Peak_Revenue row
         == inject_Z s * Pricing.Off_Peak_Price cd * (1 - 1.2 * Pricing.Risk_Factor cd) /\
       Row.Revenue_Range row == Row.Peak_Revenue row - Row.Off_Peak_Revenue row) /\
  (forall (s : Z) (c : string) (base_fare peak_price off_peak_price : Z) (risk : float),
     in_int64 s = true ->
     in_int64 (s * base_fare) = true ->
     in_int64 (s * peak_price) = true ->
     in_int64 (s * off_peak_price) = true ->
     exists row,
       Binary64.revenue_row s
         (Binary64.mk_pricing c (Binary64.Int64 base_fare) (Binary64.Int64 peak_price)
            (Binary64.Int64 off_peak_price) (Binary64.Float64 risk))
       = Ok row /\
       Binary64.Seats row = s /\
       Binary64.Base_Revenue row
       = Binary64.Float64 (Binary64.of_Z (s * base_fare) * (1 - risk))%float /\
       Binary64.Peak_Revenue row
       = (Binary64.of_Z (s * peak_price) * (1 - risk * 0.8))%float /\
       Binary64.Off_Peak_Revenue row
       = (Binary64.of_Z (s * off_peak_price) * (1 - risk * 1.2))%float /\
       Binary64.Revenue_Range row
       = (Binary64.Peak_Revenue row - Binary64.Off_Peak_Revenue row)%float).
Proof.
  split.
  - intros alloc pricing table c s Hnd Han Hin _.
    destruct (analyze_In_alloc _ _ _ _ _ Han Hin) as (cd & Hcd & Hrow).
    destruct (class_data_found _ _ _ Hcd) as [Hcdin Hcdc].
    assert (Hloc : loc table c = Ok (revenue_row s cd)).
    { apply loc_In; [| exact Hrow].
      rewrite (analyze_keys _ _ _ Han). apply nodup_keys_NoDup. exact Hnd. }
    exists cd, (revenue_row s cd).
    do 5 (split; [first [assumption | reflexivity] |]).
    cbn. split; [ring |]. split; [ring |]. split; ring.
  - intros s c f p q r Hs Hf Hp Hq.
    unfold Binary64.revenue_row, Binary64.int_mul.
    cbn [Binary64.Base_Fare Binary64.Peak_Price Binary64.Off_Peak_Price
         Binary64.Risk_Factor].
    rewrite Hs. cbn [bind].
    rewrite (wrap64_id _ Hf), (wrap64_id _ Hp), (wrap64_id _ Hq).
    cbn [Binary64.one_minus Binary64.np_mul Binary64.to_float
         Binary64.true_divide_int].
    rewrite (py_float_int64 _ Hs). cbn [bind].
    eexists. split; [reflexivity |].
    cbn [Binary64.Seats Binary64.Base_Revenue Binary64.Peak_Revenue
         Binary64.Off_Peak_Revenue Binary64.Revenue_Range].
    repeat split.
Qed.

Lemma revenue_table_formulas_witness :
  (exists cd row,
     class_data scenario_pricing "Y" = Ok cd /\ In cd scenario_pricing /\
     Pricing.Booking_Class cd = "Y" /\
     loc scenario_table "Y" = Ok row /\
     Row.Seats row = 100%Z /\
     Row.Base_Revenue row
       == inject_Z 100 * Pricing.Base_Fare cd * (1 - Pricing.Risk_Factor cd) /\
     Row.Peak_Revenue row
       == inject_Z 100 * Pricing.Peak_Price cd * (1 - 0.8 * Pricing.Risk_Factor cd) /\
     Row.Off_Peak_Revenue row
       == inject_Z 100 * Pricing.Off_Peak_Price cd * (1 - 1.2 * Pricing.Risk_Factor cd) /\
     Row.Revenue_Range row == Row.Peak_Revenue row - Row.Off_Peak_Revenue row) /\
  (exists row,
     Binary64.revenue_row 100
       (Binary64.mk_pricing "Y" (Binary64.Int64 200) (Binary64.Int64 260)
          (Binary64.Int64 150) (Binary64.Float64 0.1))
     = Ok row /\
     Binary64.Seats row = 100%Z /\
     Binary64.Base_Revenue row
     = Binary64.Float64 (Binary64.of_Z (100 * 200) * (1 - 0.1))%float /\
     Binary64.Peak_Revenue row
     = (Binary64.of_Z (100 * 260) * (1 - 0.1 * 0.8))%float /\
     Binary64.Off_Peak_Revenue row
     = (Binary64.of_Z (100 * 150) * (1 - 0.1 * 1.2))%float /\
     Binary64.Revenue_Range row
     = (Binary64.Peak_Revenue row - Binary64.Off_Peak_Revenue row)%float).
Proof.
  split.
  - apply (proj1 revenue_table_formulas scenario_allocation scenario_pricing
             scenario_table "Y" 100%Z).
    + reflexivity.
    + reflexivity.
    + simpl. left. reflexivity.
    + intros cd H. vm_compute in H. inversion H. vm_compute. reflexivity.
  - apply (proj2 revenue_table_formulas 100%Z "Y" 200%Z 260%Z 150%Z 0.1%float);
      reflexivity.
Defined.

(** C1, as stated, fails where a product leaves [int64].  With 2^62 seats and
    the integer prices of class Y of the scenario, the seats fit but the
    seats times the base fare do not: NumPy keeps the product modulo 2^64,
    which is 0, and the row has [Base_Revenue = 0.0], not the
    [2^62 * 200 * (1 - 0.1)] of the formula, which is positive. *)
Lemma int64_product_wraps :
  exists row,
    Binary64.revenue_row (2 ^ 62)
      (Binary64.mk_pricing "Y" (Binary64.Int64 200) (Binary64.Int64 260)
         (Binary64.Int64 150) (Binary64.Float64 0.1))
    = Ok row /\
    in_int64 (2 ^ 62) = true /\
    in_int64 (2 ^ 62 * 200) = false /\
    wrap64 (2 ^ 62 * 200) = 0%Z /\
    Binary64.Base_Revenue row = Binary64.Float64 0 /\
    Binary64.Revenue_per_Seat row = 0%float /\
    (0 <? Binary64.of_Z (2 ^ 62 * 200) * (1 - 0.1))%float = true /\
    (Binary64.to_float (Binary64.Base_Revenue row)
     =? Binary64.of_Z (2 ^ 62 * 200) * (1 - 0.1))%float = false.
Proof.
  eexists. split; [vm_compute; reflexivity |].
  repeat split; vm_compute; reflexivity.
Qed.




Lemma machine_class_data_absent (pricing_df : list Binary64.pricing) (c : string) :
  (forall cd, In cd pricing_df -> Binary64.Booking_Class cd <> c) ->
  Binary64.class_data pricing_df c
  = Raise (match pricing_df with [] => KeyError | _ => IndexError end).
Proof.
  intros Habs. unfold Binary64.class_data.
  destruct pricing_df as [| r0 rest]; [reflexivity |].
  destruct (filter _ (r0 :: rest)) as [| r rs] eqn:E; [reflexivity |].
  assert (Hin : In r (r :: rs)) by (left; reflexivity).
  rewrite <- E in Hin. apply filter_In in Hin. destruct Hin as [Hin Heq].
  apply String.eqb_eq in Heq. elim (Habs r Hin Heq).
Qed.

Lemma machine_class_data_raise (pricing_df : list Binary64.pricing) (c : string)
  (e : exn) :
  Binary64.class_data pricing_df c = Raise e ->
  e = match pricing_df with [] => KeyError | _ => IndexError end.
Proof.
  unfold Binary64.class_data. destruct pricing_df as [| r0 rest].
  - intros H. inversion H. reflexivity.
  - destruct (filter _ (r0 :: rest)); intros H; inversion H. reflexivity.
Qed.

(** C8, as the code has it.  When a class of the allocation has no record in
    the pricing table, and the seat counts fit in [int64],
    [analyze_revenue_potential] returns no table: it raises at once, with the
    [IndexError] of [.iloc[0]] on the empty selection (the [KeyError] of the
    missing column when the pricing table has no record at all).  No row is
    left out and no default is used.  The same holds of the computation on
    the machine's values. *)
Theorem unknown_class_raises (alloc : allocation) (c : string) :
  seats_in_int64 alloc = true ->
  In c (keys alloc) ->
  (forall pricing : pricing_table,
     (forall cd, In cd pricing -> Pricing.Booking_Class cd <> c) ->
     analyze_revenue_potential alloc pricing
     = Raise (match pricing with [] => KeyError | _ => IndexError end)) /\
  (forall pricing_df : list Binary64.pricing,
     (forall cd, In cd pricing_df -> Binary64.Booking_Class cd <> c) ->
     Binary64.analyze_revenue_potential alloc pricing_df
     = Raise (match pricing_df with [] => KeyError | _ => IndexError end)).
Proof.
  intros Hseats Hin. split.
  - intros pricing Habs. clear Hseats.
    induction alloc as [| [c' s'] alloc IH]; simpl in *.
    + contradiction.
    + destruct (class_data pricing c') as [cd | e] eqn:E; simpl.
      * destruct Hin as [Heq | Hin].
        -- subst c'. rewrite (class_data_absent _ _ Habs) in E. discriminate.
        -- rewrite (IH Hin). reflexivity.
      * rewrite (class_data_raise _ _ _ E). reflexivity.
  - intros pricing_df Habs.
    induction alloc as [| [c' s'] alloc IH].
    + contradiction.
    + cbn [Binary64.analyze_revenue_potential].
      cbn [seats_in_int64 forallb snd] in Hseats.
      apply andb_true_iff in Hseats. destruct Hseats as [Hs Hrest].
      destruct (Binary64.class_data pricing_df c') as [cd | e] eqn:E; cbn [bind].
      * destruct Hin as [Heq | Hin].
        -- cbn in Heq. subst c'.
           rewrite (machine_class_data_absent _ _ Habs) in E. discriminate.
        -- destruct (machine_row_total s' cd Hs) as (r & ->). cbn [bind].
           rewrite (IH Hrest Hin). reflexivity.
      * rewrite (machine_class_data_raise _ _ _ E). reflexivity.
Qed.

Lemma unknown_class_raises_witness :
  analyze_revenue_potential [("Y", 100%Z); ("Z", 5%Z)] scenario_pricing
  = Raise IndexError /\
  Binary64.analyze_revenue_potential [("Y", 100%Z); ("Z", 5%Z)]
    Binary64.scenario_pricing
  = Raise IndexError.
Proof.
  assert (Hs : seats_in_int64 [("Y", 100%Z); ("Z", 5%Z)] = true) by reflexivity.
  assert (Hin : In "Z" (keys [("Y", 100%Z); ("Z", 5%Z)]))
    by (simpl; right; left; reflexivity).
  split.
  - apply (proj1 (unknown_class_raises [("Y", 100%Z); ("Z", 5%Z)] "Z" Hs Hin)
             scenario_pricing).
    intros cd [H | [H | []]]; subst cd; cbn; discriminate.
  - apply (proj2 (unknown_class_raises [("Y", 100%Z); ("Z", 5%Z)] "Z" Hs Hin)
             Binary64.scenario_pricing).
    intros cd [H | [H | []]]; subst cd; cbn; discriminate.
Defined.

(** C8, as stated, fails: the error is not one that names the unknown class.
    Two different unknown classes end the call with the same [IndexError],
    which carries no class, and with no pricing record at all the error is a
    [KeyError]. *)
Lemma unknown_class_error_is_anonymous :
  analyze_revenue_potential [("Y", 100%Z); ("Z", 5%Z)] scenario_pricing
  = Raise IndexError /\
  analyze_revenue_potential [("Y", 100%Z); ("W", 5%Z)] scenario_pricing
  = Raise IndexError /\
  analyze_revenue_potential [("Z", 5%Z)] [] = Raise KeyError /\
  Binary64.analyze_revenue_potential [("Y", 100%Z); ("Z", 5%Z)]
    Binary64.scenario_pricing
  = Raise IndexError /\
  Binary64.analyze_revenue_potential [("Y", 100%Z); ("W", 5%Z)]
    Binary64.scenario_pricing
  = Raise IndexError /\
  Binary64.analyze_revenue_potential [("Z", 5%Z)] [] = Raise KeyError.
Proof. repeat split; vm_compute; reflexivity. Qed.

(** ** The time-slot schedule *)

(** What a successful call of [optimize_peak_scheduling] has computed. *)
Lemma optimize_peak_scheduling_ok (alloc : allocation) (pricing : pricing_table)
  (slots : time_slots) :
  nodup_keys alloc = true ->
  optimize_peak_scheduling alloc pricing = Ok slots ->
  exists table sorted,
    analyze_revenue_potential alloc pricing = Ok table /\
    sort_values table = Ok sorted /\
    sorted = sort_desc table /\
    NoDup (keys table) /\
    (forall c row, In (c, row) sorted -> loc table c = Ok row) /\
    slots = slots_after (List.length sorted) sorted empty_slots.
Proof.
  intros Hnd H. unfold optimize_peak_scheduling in H.
  apply bind_ok in H. destruct H as (table & Han & H).
  apply bind_ok in H. destruct H as (sorted & Hsort & H).
  assert (Hkeys : NoDup (keys table)).
  { rewrite (analyze_keys _ _ _ Han). apply nodup_keys_NoDup. exact Hnd. }
  assert (Hsd : sorted = sort_desc table).
  { unfold sort_values in Hsort. destruct table; [discriminate |].
    inversion Hsort. reflexivity. }
  assert (Hloc : forall c row, In (c, row) sorted -> loc table c = Ok row).
  { intros c row Hin. apply loc_In; [exact Hkeys |].
    apply Permutation_in with (l := sorted); [| exact Hin].
    subst sorted. apply Permutation_sym, sort_desc_perm. }
  exists table, sorted. repeat (split; [assumption |]).
  rewrite (schedule_loop_slots_after _ _ _ _ Hloc) in H.
  inversion H. reflexivity.
Qed.

(** C4. The schedule is one greedy pass over the sorted classes.  When the
    pass reaches class [c], of ratio [Peak_Revenue / Off_Peak_Revenue]:
    a ratio above 1.2 sends [c] to [Morning_Peak] if that list holds fewer than
    [total / 4] classes at that moment, and to [Evening_Peak] otherwise;
    a ratio above 1.1 and at most 1.2 sends it to [Midday]; a ratio of at
    most 1.1 sends it to [Off_Peak].  Nothing else changes, and the result is
    the state after the last class. *)
Theorem greedy_peak_assignment (alloc : allocation) (pricing : pricing_table)
  (slots : time_slots) :
  nodup_keys alloc = true ->
  optimize_peak_scheduling alloc pricing = Ok slots ->
  exists table sorted,
    analyze_revenue_potential alloc pricing = Ok table /\
    sort_values table = Ok sorted /\
    slots = slots_after (List.length sorted) sorted empty_slots /\
    forall pre c row post,
      sorted = pre ++ (c, row) :: post ->
      let total := List.length sorted in
      let before := slots_after total pre empty_slots in
      let after := slots_after total (pre ++ [(c, row)]) empty_slots in
      let ratio := np_true_divide (Row.Peak_Revenue row) (Row.Off_Peak_Revenue row) in
      loc table c = Ok row /\
      (num_gtb ratio (Fin 1.2) = true ->
       (List.length (Morning_Peak before) < total / 4)%nat ->
       after = mk_slots (Morning_Peak before ++ [c]) (Midday before)
                        (Evening_Peak before) (Off_Peak before)) /\
      (num_gtb ratio (Fin 1.2) = true ->
       ~ (List.length (Morning_Peak before) < total / 4)%nat ->
       after = mk_slots (Morning_Peak before) (Midday before)
                        (Evening_Peak before ++ [c]) (Off_Peak before)) /\
      (num_gtb ratio (Fin 1.1) = true -> num_leb ratio (Fin 1.2) = true ->
       after = mk_slots (Morning_Peak before) (Midday before ++ [c])
                        (Evening_Peak before) (Off_Peak before)) /\
      (num_leb ratio (Fin 1.1) = true ->
       after = mk_slots (Morning_Peak before) (Midday before)
                        (Evening_Peak before) (Off_Peak before ++ [c])).
Proof.
  intros Hnd H.
  destruct (optimize_peak_scheduling_ok _ _ _ Hnd H)
    as (table & sorted & Han & Hsort & Hsd & Hkeys & Hloc & Hslots).
  exists table, sorted. repeat (split; [assumption |]).
  intros pre c row post Hsplit total before after ratio.
  split.
  { apply Hloc. rewrite Hsplit. apply in_or_app. right. left. reflexivity. }
  subst after before. rewrite slots_after_snoc.
  generalize (slots_after total pre empty_slots). intros st.
  unfold visit, assign_slot. cbn [fst snd].
  change (peak_ratio row) with ratio.
  generalize ratio. clear. intros ratio.
  repeat split.
  - intros Hhi Hlt. rewrite Hhi.
    apply Nat.ltb_lt in Hlt. rewrite Hlt. reflexivity.
  - intros Hhi Hlt. rewrite Hhi.
    destruct (Nat.ltb_spec (List.length (Morning_Peak st)) (total / 4));
      [contradiction | reflexivity].
  - intros Hmid Hle. rewrite Hmid.
    destruct ratio as [q | | |]; cbn in *; try discriminate.
    unfold Qltb. rewrite Hle. reflexivity.
  - intros Hle.
    destruct ratio as [q | | |]; cbn in *; try discriminate; try reflexivity.
    unfold Qltb. rewrite Hle. cbn.
    assert (Hle2 : Qle_bool q 1.2 = true).
    { apply Qle_bool_iff. apply Qle_bool_iff in Hle.
      eapply Qle_trans; [exact Hle | discriminate]. }
    rewrite Hle2. reflexivity.
Qed.

Lemma greedy_peak_assignment_witness :
  exists table sorted,
    analyze_revenue_potential mixed_allocation mixed_pricing = Ok table /\
    sort_values table = Ok sorted /\
    mk_slots ["J"] ["Y"] ["C"; "Q"] ["M"]
    = slots_after (List.length sorted) sorted empty_slots /\
    forall pre c row post,
      sorted = pre ++ (c, row) :: post ->
      let total := List.length sorted in
      let before := slots_after total pre empty_slots in
      let after := slots_after total (pre ++ [(c, row)]) empty_slots in
      let ratio := np_true_divide (Row.Peak_Revenue row) (Row.Off_Peak_Revenue row) in
      loc table c = Ok row /\
      (num_gtb ratio (Fin 1.2) = true ->
       (List.length (Morning_Peak before) < total / 4)%nat ->
       after = mk_slots (Morning_Peak before ++ [c]) (Midday before)
                        (Evening_Peak before) (Off_Peak before)) /\
      (num_gtb ratio (Fin 1.2) = true ->
       ~ (List.length (Morning_Peak before) < total / 4)%nat ->
       after = mk_slots (Morning_Peak before) (Midday before)
                        (Evening_Peak before ++ [c]) (Off_Peak before)) /\
      (num_gtb ratio (Fin 1.1) = true -> num_leb ratio (Fin 1.2) = true ->
       after = mk_slots (Morning_Peak before) (Midday before ++ [c])
                        (Evening_Peak before) (Off_Peak before)) /\
      (num_leb ratio (Fin 1.1) = true ->
       after = mk_slots (Morning_Peak before) (Midday before)
                        (Evening_Peak before) (Off_Peak before ++ [c])).
Proof.
  apply (greedy_peak_assignment mixed_allocation mixed_pricing).
  - reflexivity.
  - vm_compute. reflexivity.
Defined.

Lemma ratio_high_above (p : string * Row.t) :
  ratio_high p = true -> num_gtb (peak_ratio (snd p)) (Fin 1.1) = true.
Proof.
  unfold ratio_high, num_gtb.
  destruct (peak_ratio (snd p)) as [q | | |]; cbn; try discriminate; try reflexivity.
  intros H. apply Qltb_lt in H. apply Qltb_lt.
  eapply Qlt_trans; [| exact H]. reflexivity.
Qed.

(** The three tests of the loop split the rows. *)
Lemma ratio_split_perm (l : revenue_table) :
  Permutation l (filter ratio_high l ++ filter ratio_mid l ++ filter ratio_rest l).
Proof.
  induction l as [| x l IH]; cbn [filter app].
  - constructor.
  - rewrite (ratio_mid_elif x).
    change (ratio_rest x) with (negb (num_gtb (peak_ratio (snd x)) (Fin 1.1))).
    destruct (ratio_high x) eqn:Eh.
    + rewrite (ratio_high_above x Eh). cbn [negb andb app].
      apply perm_skip. exact IH.
    + destruct (num_gtb (peak_ratio (snd x)) (Fin 1.1)); cbn [negb andb].
      * apply Permutation_cons_app. exact IH.
      * rewrite app_assoc. apply Permutation_cons_app.
        rewrite <- app_assoc. exact IH.
Qed.

Lemma all_slots_perm (total : nat) (l : revenue_table) :
  Permutation (all_slots (slots_after total l empty_slots)) (keys l).
Proof.
  rewrite slots_after_closed. unfold all_slots.
  cbn [Morning_Peak Midday Evening_Peak Off_Peak].
  set (H := keys (filter ratio_high l)). set (M := keys (filter ratio_mid l)).
  set (R := keys (filter ratio_rest l)).
  apply perm_trans with (H ++ M ++ R).
  - rewrite <- (firstn_skipn (total / 4) H) at 3.
    rewrite <- !app_assoc. apply Permutation_app_head.
    rewrite !app_assoc. apply Permutation_app_tail.
    apply Permutation_app_comm.
  - unfold H, M, R, keys. rewrite <- !map_app.
    apply Permutation_map, Permutation_sym, ratio_split_perm.
Qed.

(** What a successful call has computed, whatever the sorting algorithm. *)
Lemma optimize_peak_scheduling_by_ok (sort : revenue_table -> revenue_table)
  (alloc : allocation) (pricing : pricing_table) (slots : time_slots) :
  (forall t, Permutation t (sort t)) ->
  nodup_keys alloc = true ->
  optimize_peak_scheduling_by sort alloc pricing = Ok slots ->
  exists table,
    analyze_revenue_potential alloc pricing = Ok table /\
    table <> [] /\
    NoDup (keys table) /\
    slots = slots_after (List.length (sort table)) (sort table) empty_slots.
Proof.
  intros Hperm Hnd H. unfold optimize_peak_scheduling_by in H.
  apply bind_ok in H. destruct H as (table & Han & H).
  apply bind_ok in H. destruct H as (sorted & Hsort & H).
  assert (Hkeys : NoDup (keys table)).
  { rewrite (analyze_keys _ _ _ Han). apply nodup_keys_NoDup. exact Hnd. }
  assert (Hne : table <> []).
  { intros ->. discriminate. }
  assert (Hsd : sorted = sort table).
  { unfold sort_values_by in Hsort. destruct table; [discriminate |].
    inversion Hsort. reflexivity. }
  subst sorted.
  assert (Hloc : forall c row, In (c, row) (sort table) -> loc table c = Ok row).
  { intros c row Hin. apply loc_In; [exact Hkeys |].
    apply Permutation_in with (l := sort table); [| exact Hin].
    apply Permutation_sym, Hperm. }
  exists table. repeat (split; [assumption |]).
  rewrite (schedule_loop_slots_after _ _ _ _ Hloc) in H.
  inversion H. reflexivity.
Qed.

(** C5, as the code has it.  The classes are visited in descending order of
    [Revenue_per_Seat], those without a value ([nan]) last.  Where classes of
    equal revenue per seat stand among themselves is not decided by their
    identifiers: it is left to the sorting algorithm, which is given the
    values and never the labels.  For every algorithm that returns the rows
    in descending order and cannot see the labels, the schedule is the pass
    over the rows as sorted, and renaming the classes renames the sorted
    frame without reordering it. *)
Theorem sorted_by_revenue_per_seat (sort : revenue_table -> revenue_table)
  (alloc : allocation) (pricing : pricing_table) (slots : time_slots) :
  descending_sort sort ->
  label_blind sort ->
  nodup_keys alloc = true ->
  optimize_peak_scheduling_by sort alloc pricing = Ok slots ->
  exists table sorted,
    analyze_revenue_potential alloc pricing = Ok table /\
    keys table = keys alloc /\
    sort_values_by sort table = Ok sorted /\
    slots = slots_after (List.length sorted) sorted empty_slots /\
    Permutation table sorted /\
    StronglySorted row_ge sorted /\
    (forall f : string -> string,
       sort_values_by sort (relabel f table) = Ok (relabel f sorted)).
Proof.
  intros Hdesc Hblind Hnd H.
  destruct (optimize_peak_scheduling_by_ok sort _ _ _ (fun t => proj1 (Hdesc t)) Hnd H)
    as (table & Han & Hne & Hkeys & Hslots).
  exists table, (sort table). split; [exact Han |].
  split; [apply (analyze_keys _ _ _ Han) |].
  destruct table as [| r table']; [congruence |].
  split; [reflexivity |]. split; [exact Hslots |].
  split; [apply Hdesc |]. split; [apply Hdesc |].
  intros f. cbn [relabel map sort_values_by]. f_equal.
  apply (Hblind f (r :: table')).
Qed.

Lemma sorted_by_revenue_per_seat_witness :
  exists table sorted,
    analyze_revenue_potential mixed_allocation mixed_pricing = Ok table /\
    keys table = keys mixed_allocation /\
    sort_values_by sort_desc table = Ok sorted /\
    mk_slots ["J"] ["Y"] ["C"; "Q"] ["M"]
    = slots_after (List.length sorted) sorted empty_slots /\
    Permutation table sorted /\
    StronglySorted row_ge sorted /\
    (forall f : string -> string,
       sort_values_by sort_desc (relabel f table) = Ok (relabel f sorted)).
Proof.
  apply (sorted_by_revenue_per_seat sort_desc mixed_allocation mixed_pricing).
  - intros t. split; [apply sort_desc_perm | apply sort_desc_sorted].
  - intros f t. apply sort_desc_relabel.
  - reflexivity.
  - vm_compute. reflexivity.
Defined.

(** C5, as stated, fails: ["Y"] and ["J"] have the same revenue per seat, so
    the sort is given the same column of values whether they are allocated
    as Y, J or as J, Y, and arranges the positions in the same way.  The two
    sorted frames list the two classes in opposite orders, and so do the two
    schedules: in one of the two cases the ties are not in ascending order of
    the identifiers. *)
Lemma ties_ignore_identifiers :
  exists table table' sorted sorted' slots slots',
    analyze_revenue_potential tie_allocation tie_pricing = Ok table /\
    analyze_revenue_potential tie_allocation_swapped tie_pricing = Ok table' /\
    values table' = values table /\
    Forall (fun r => key_eqb (sort_key r) (Fin 180) = true) table /\
    sort_values table = Ok sorted /\
    sort_values table' = Ok sorted' /\
    keys sorted' = rev (keys sorted) /\
    ties_ascending sorted && ties_ascending sorted' = false /\
    optimize_peak_scheduling tie_allocation tie_pricing = Ok slots /\
    optimize_peak_scheduling tie_allocation_swapped tie_pricing = Ok slots' /\
    List.length (Evening_Peak slots) = 2%nat /\
    Evening_Peak slots' = rev (Evening_Peak slots).
Proof.
  do 6 eexists.
  split; [vm_compute; reflexivity |].
  split; [vm_compute; reflexivity |].
  split; [reflexivity |].
  split; [repeat constructor |].
  split; [vm_compute; reflexivity |].
  split; [vm_compute; reflexivity |].
  split; [reflexivity |].
  split; [reflexivity |].
  split; [vm_compute; reflexivity |].
  split; [vm_compute; reflexivity |].
  split; reflexivity.
Qed.

(** C6. On success the four lists together hold every allocated class once:
    they are pairwise disjoint and their union is the set of the classes of
    the allocation. *)
Theorem time_slots_partition (alloc : allocation) (pricing : pricing_table)
  (slots : time_slots) :
  nodup_keys alloc = true ->
  optimize_peak_scheduling alloc pricing = Ok slots ->
  Permutation (all_slots slots) (keys alloc) /\
  NoDup (all_slots slots) /\
  (forall c, In c (keys alloc) <->
             In c (Morning_Peak slots) \/ In c (Midday slots) \/
             In c (Evening_Peak slots) \/ In c (Off_Peak slots)).
Proof.
  intros Hnd H.
  destruct (optimize_peak_scheduling_ok _ _ _ Hnd H)
    as (table & sorted & Han & Hsort & Hsd & Hkeys & Hloc & Hslots).
  assert (Hperm : Permutation (all_slots slots) (keys alloc)).
  { rewrite Hslots. eapply perm_trans; [apply all_slots_perm |].
    rewrite <- (analyze_keys _ _ _ Han). subst sorted.
    apply Permutation_map, Permutation_sym, sort_desc_perm. }
  split; [exact Hperm |]. split.
  - apply Permutation_NoDup with (l := keys alloc).
    + apply Permutation_sym. exact Hperm.
    + apply nodup_keys_NoDup. exact Hnd.
  - intros c. split.
    + intros Hin. apply (Permutation_in _ (Permutation_sym Hperm)) in Hin.
      unfold all_slots in Hin. rewrite !in_app_iff in Hin. exact Hin.
    + intros Hin. apply (Permutation_in _ Hperm).
      unfold all_slots. rewrite !in_app_iff. exact Hin.
Qed.

Lemma time_slots_partition_witness :
  Permutation (all_slots (mk_slots ["J"] ["Y"] ["C"; "Q"] ["M"]))
              (keys mixed_allocation) /\
  NoDup (all_slots (mk_slots ["J"] ["Y"] ["C"; "Q"] ["M"])) /\
  (forall c, In c (keys mixed_allocation) <->
             In c ["J"] \/ In c ["Y"] \/ In c ["C"; "Q"] \/ In c ["M"]).
Proof.
  apply (time_slots_partition mixed_allocation mixed_pricing).
  - reflexivity.
  - vm_compute. reflexivity.
Defined.

(** ** Zero divisors in the ratios *)

Lemma class_data_priced (pricing : pricing_table) (c : string) :
  (exists cd, In cd pricing /\ Pricing.Booking_Class cd = c) ->
  exists cd, class_data pricing c = Ok cd.
Proof.
  intros (cd & Hin & Hc). unfold class_data.
  destruct pricing as [| r0 pricing']; [contradiction |].
  set (l := r0 :: pricing') in *.
  destruct (filter _ l) as [| r rs] eqn:E.
  - assert (Hf : In cd (filter (fun r => String.eqb (Pricing.Booking_Class r) c) l)).
    { apply filter_In. split; [exact Hin |]. apply String.eqb_eq. exact Hc. }
    rewrite E in Hf. contradiction.
  - exists r. reflexivity.
Qed.

Lemma analyze_total (alloc : allocation) (pricing : pricing_table) :
  all_priced alloc pricing ->
  exists table, analyze_revenue_potential alloc pricing = Ok table.
Proof.
  unfold all_priced. induction alloc as [| [c s] alloc IH]; simpl; intros Hp.
  - exists []. reflexivity.
  - destruct (class_data_priced pricing c) as (cd & ->).
    { apply Hp. left. reflexivity. }
    destruct IH as (table & ->).
    { intros c' Hin. apply Hp. right. exact Hin. }
    simpl. eexists. reflexivity.
Qed.

Lemma loc_total (table : revenue_table) (c : string) :
  In c (keys table) -> exists row, loc table c = Ok row.
Proof.
  unfold loc. induction table as [| [c' row'] table IH]; simpl; intros Hin.
  - contradiction.
  - destruct (String.eqb c' c) eqn:E.
    + exists row'. reflexivity.
    + destruct Hin as [Heq | Hin].
      * subst c'. rewrite String.eqb_refl in E. discriminate.
      * apply IH. exact Hin.
Qed.

Lemma schedule_loop_total (table : revenue_table) (total : nat)
  (index : list string) (slots : time_slots) :
  (forall c, In c index -> In c (keys table)) ->
  exists slots', schedule_loop table total index slots = Ok slots'.
Proof.
  revert slots. induction index as [| c index IH]; simpl; intros slots Hin.
  - exists slots. reflexivity.
  - destruct (loc_total table c) as (row & ->).
    { apply Hin. left. reflexivity. }
    simpl. apply IH. intros c' Hc'. apply Hin. right. exact Hc'.
Qed.


Lemma np_true_divide_zero_zero (a b : Q) :
  a == 0 -> b == 0 -> np_true_divide a b = NaN.
Proof.
  intros Ha Hb. unfold np_true_divide.
  apply Qeq_bool_iff in Ha, Hb. rewrite Ha, Hb. reflexivity.
Qed.




(** ** The targets *)

Lemma Qeq_bool_false (a b : Q) : ~ a == b -> Qeq_bool a b = false.
Proof.
  intros H. destruct (Qeq_bool a b) eqn:E; [| reflexivity].
  apply Qeq_bool_eq in E. contradiction.
Qed.

Lemma len_zero {A : Type} (l : list A) : len l == 0 <-> l = [].
Proof.
  unfold len, Qeq. simpl. destruct l; simpl; split; intros H;
    try reflexivity; try discriminate; lia.
Qed.


Lemma analyze_current_performance_ok (rt : revenue_table) (alloc : allocation)
  (pricing : pricing_table) (current : current_metrics) :
  analyze_current_performance rt alloc pricing = Ok current ->
  total_revenue current = sumQ (base_revenues rt) /\
  risk_rates current = priced_risk_rates pricing.
Proof.
  unfold analyze_current_performance. destruct rt as [| r rt']; [discriminate |].
  intros H. apply bind_ok in H. destruct H as (avg & _ & H).
  destruct pricing as [| p pricing']; [discriminate |].
  inversion H. split; reflexivity.
Qed.


Lemma get_class_actions_ok (class_type : string) :
  In class_type ["premium"; "mid_tier"; "economy"] ->
  exists actions, _get_class_actions class_type = Ok actions.
Proof.
  intros [<- | [<- | [<- | []]]]; eexists; reflexivity.
Qed.


Lemma class_target_of_members (class_type : string) (classes : dict num) :
  In class_type ["premium"; "mid_tier"; "economy"] ->
  classes <> [] ->
  exists t, class_target_of class_type classes = Ok t.
Proof.
  intros Hct Hne. unfold class_target_of, py_div_num.
  rewrite Qeq_bool_false by (rewrite len_zero; exact Hne). cbn [bind].
  destruct (get_class_actions_ok _ Hct) as (actions & ->). cbn [bind].
  eexists. reflexivity.
Qed.

(** An empty yield tier ends [_set_class_targets] with the error of the
    division by its size. *)
Lemma set_class_targets_empty_tier (current : current_metrics) :
  high_yield current = [] \/ mid_yield current = [] \/ low_yield current = [] ->
  _set_class_targets current = Raise ZeroDivisionError.
Proof.
  intros Hempty. unfold _set_class_targets. cbn [class_targets_loop].
  destruct (high_yield current) as [| h hs] eqn:Eh; [reflexivity |].
  destruct (class_target_of_members "premium" (h :: hs)) as (t1 & ->);
    [left; reflexivity | discriminate |]. cbn [bind].
  destruct (mid_yield current) as [| m ms] eqn:Em; [reflexivity |].
  destruct (class_target_of_members "mid_tier" (m :: ms)) as (t2 & ->);
    [right; left; reflexivity | discriminate |]. cbn [bind].
  destruct (low_yield current) as [| w ws] eqn:El; [reflexivity |].
  destruct Hempty as [H | [H | H]]; discriminate.
Qed.


(** C2, as the code has it.  Whenever [analyze_current_performance] returns
    the current metrics, the overall target that [_set_overall_targets]
    derives from them has [target_daily_revenue] equal to the sum of
    [Base_Revenue] times 1.15, and it is the overall target of
    [calculate_revenue_targets] whenever that call returns.  On the table of
    the scenario the metrics have [total_revenue = 27500]; in binary64 the
    base revenues are 18000.0 and 9500.0, their sum is 27500.0, and the
    product with 1.15 is 31624.999999999996, which is 31625 to within
    1e-11. *)
Theorem overall_target_daily_revenue (rt : revenue_table) (alloc : allocation)
  (pricing : pricing_table) (current : current_metrics) :
  analyze_current_performance rt alloc pricing = Ok current ->
  total_revenue current = sumQ (base_revenues rt) /\
  target_daily_revenue (_set_overall_targets current)
  = sumQ (base_revenues rt) * 1.15 /\
  (forall t, calculate_revenue_targets rt alloc pricing = Ok t ->
             overall (targets_revenue t) = _set_overall_targets current) /\
  (analyze_revenue_potential scenario_allocation scenario_pricing = Ok rt ->
   total_revenue current == 27500) /\
  (exists machine_table,
     Binary64.analyze_revenue_potential scenario_allocation Binary64.scenario_pricing
     = Ok machine_table /\
     map (fun p => Binary64.Base_Revenue (snd p)) machine_table
     = [Binary64.Float64 18000; Binary64.Float64 9500] /\
     Binary64.total_revenue machine_table = 27500%float /\
     Binary64.target_daily_revenue (Binary64.total_revenue machine_table)
     = 31624.999999999996%float /\
     (Binary64.target_daily_revenue (Binary64.total_revenue machine_table)
      <? 31625)%float = true /\
     (31625 - Binary64.target_daily_revenue (Binary64.total_revenue machine_table)
      <? 1e-11)%float = true).
Proof.
  intros Hcur.
  destruct (analyze_current_performance_ok _ _ _ _ Hcur) as [Htot _].
  split; [exact Htot |]. split; [cbn; rewrite Htot; reflexivity |]. split; [| split].
  - intros t Ht. unfold calculate_revenue_targets in Ht. rewrite Hcur in Ht.
    cbn [bind] in Ht.
    apply bind_ok in Ht. destruct Ht as (bc & _ & Ht).
    apply bind_ok in Ht. destruct Ht as (rk & _ & Ht).
    inversion Ht. reflexivity.
  - intros Hrt. cbn in Hrt. inversion Hrt; subst rt.
    rewrite Htot. vm_compute. reflexivity.
  - eexists. split; [vm_compute; reflexivity |].
    repeat split; vm_compute; reflexivity.
Qed.

Lemma overall_target_daily_revenue_witness :
  exists current,
    analyze_current_performance scenario_table scenario_allocation scenario_pricing
    = Ok current /\
    total_revenue current = sumQ (base_revenues scenario_table) /\
    target_daily_revenue (_set_overall_targets current)
    = sumQ (base_revenues scenario_table) * 1.15 /\
    (forall t, calculate_revenue_targets scenario_table scenario_allocation
                 scenario_pricing = Ok t ->
               overall (targets_revenue t) = _set_overall_targets current) /\
    (analyze_revenue_potential scenario_allocation scenario_pricing
     = Ok scenario_table ->
     total_revenue current == 27500) /\
    (exists machine_table,
       Binary64.analyze_revenue_potential scenario_allocation Binary64.scenario_pricing
       = Ok machine_table /\
       map (fun p => Binary64.Base_Revenue (snd p)) machine_table
       = [Binary64.Float64 18000; Binary64.Float64 9500] /\
       Binary64.total_revenue machine_table = 27500%float /\
       Binary64.target_daily_revenue (Binary64.total_revenue machine_table)
       = 31624.999999999996%float /\
       (Binary64.target_daily_revenue (Binary64.total_revenue machine_table)
        <? 31625)%float = true /\
       (31625 - Binary64.target_daily_revenue (Binary64.total_revenue machine_table)
        <? 1e-11)%float = true).
Proof.
  eexists. split; [reflexivity |].
  apply (overall_target_daily_revenue scenario_table scenario_allocation
           scenario_pricing).
  reflexivity.
Defined.

(** C2, as stated, fails on its own scenario: [calculate_revenue_targets]
    returns no targets there.  With 180 and 475 per seat around an average of
    27500/120, no class falls in the middle yield tier, and the average over
    that tier divides by zero. *)
Lemma scenario_targets_raise :
  analyze_revenue_potential scenario_allocation scenario_pricing = Ok scenario_table /\
  calculate_revenue_targets scenario_table scenario_allocation scenario_pricing
  = Raise ZeroDivisionError /\
  exists current,
    analyze_current_performance scenario_table scenario_allocation scenario_pricing
    = Ok current /\
    keys (high_yield current) = ["J"] /\
    mid_yield current = [] /\
    keys (low_yield current) = ["Y"].
Proof.
  split; [reflexivity |]. split; [vm_compute; reflexivity |].
  eexists. split; [reflexivity |]. repeat split.
Qed.

Lemma set_risk_targets_ok (current : current_metrics) (r : risk_targets) :
  _set_risk_targets current = Ok r ->
  let rates := risk_rates current in
  risk_current (risk_premium r)
  = sum_where (fun k => mem k premium_codes) rates / 2 /\
  risk_current (risk_mid_tier r)
  = sum_where (fun k => mem k mid_tier_codes) rates / 5 /\
  risk_current (risk_economy r)
  = sum_where (fun k => negb (mem k listed_codes)) rates / (len rates - 7).
Proof.
  unfold _set_risk_targets, py_div. intros H.
  apply bind_ok in H. destruct H as (avg & _ & H).
  change (Qeq_bool 2 0) with false in H. change (Qeq_bool 5 0) with false in H.
  cbn [bind] in H.
  destruct (Qeq_bool (len (risk_rates current) - 7) 0); [discriminate |].
  cbn [bind] in H. inversion H. cbn. repeat split.
Qed.

Lemma sum_where_none (keep : string -> bool) (rates : dict Q) :
  filter (fun kv => keep (fst kv)) rates = [] -> sum_where keep rates = 0.
Proof. unfold sum_where. intros ->. reflexivity. Qed.

(** C9, as the code has it.  An empty yield tier makes
    [calculate_revenue_targets] fail with Python's own [ZeroDivisionError],
    raised by the division by the size of the tier.  An empty class-code
    group of the risk targets raises nothing by being empty: when the risk
    targets are returned, its current value is a plain zero. *)
Theorem empty_group_averages (rt : revenue_table) (alloc : allocation)
  (pricing : pricing_table) (current : current_metrics) :
  analyze_current_performance rt alloc pricing = Ok current ->
  (high_yield current = [] \/ mid_yield current = [] \/ low_yield current = [] ->
   _set_class_targets current = Raise ZeroDivisionError /\
   calculate_revenue_targets rt alloc pricing = Raise ZeroDivisionError) /\
  (forall r,
     _set_risk_targets current = Ok r ->
     let rates := risk_rates current in
     (filter (fun kv => mem (fst kv) premium_codes) rates = [] ->
      risk_current (risk_premium r) == 0) /\
     (filter (fun kv => mem (fst kv) mid_tier_codes) rates = [] ->
      risk_current (risk_mid_tier r) == 0) /\
     (filter (fun kv => negb (mem (fst kv) listed_codes)) rates = [] ->
      risk_current (risk_economy r) == 0)).
Proof.
  intros Hcur. split.
  - intros Hempty.
    assert (Hct := set_class_targets_empty_tier current Hempty).
    split; [exact Hct |].
    unfold calculate_revenue_targets. rewrite Hcur. cbn [bind].
    rewrite Hct. reflexivity.
  - intros r Hr rates.
    destruct (set_risk_targets_ok _ _ Hr) as (Hp & Hm & He). fold rates in Hp, Hm, He.
    repeat split; intros Hnone.
    + rewrite Hp, (sum_where_none (fun k => mem k premium_codes)) by exact Hnone.
      reflexivity.
    + rewrite Hm, (sum_where_none (fun k => mem k mid_tier_codes)) by exact Hnone.
      reflexivity.
    + rewrite He, (sum_where_none (fun k => negb (mem k listed_codes))) by exact Hnone.
      unfold Qdiv. ring.
Qed.

Lemma empty_group_averages_witness :
  exists current,
    analyze_current_performance scenario_table scenario_allocation scenario_pricing
    = Ok current /\
    (high_yield current = [] \/ mid_yield current = [] \/ low_yield current = [] ->
     _set_class_targets current = Raise ZeroDivisionError /\
     calculate_revenue_targets scenario_table scenario_allocation scenario_pricing
     = Raise ZeroDivisionError) /\
    (forall r,
       _set_risk_targets current = Ok r ->
       let rates := risk_rates current in
       (filter (fun kv => mem (fst kv) premium_codes) rates = [] ->
        risk_current (risk_premium r) == 0) /\
       (filter (fun kv => mem (fst kv) mid_tier_codes) rates = [] ->
        risk_current (risk_mid_tier r) == 0) /\
       (filter (fun kv => negb (mem (fst kv) listed_codes)) rates = [] ->
        risk_current (risk_economy r) == 0)).
Proof.
  eexists. split; [reflexivity |].
  apply (empty_group_averages scenario_table scenario_allocation scenario_pricing).
  reflexivity.
Defined.

(** C9, as stated, fails: with the classes ["Y"], ["M"] and ["Q"] priced, the
    targets are returned although none of the codes of the middle group of
    the risk targets is present; the current risk of that group is reported
    as 0, without an error and without a mark of missing data. *)
Lemma empty_risk_group_is_silent :
  exists table t,
    analyze_revenue_potential three_tier_allocation three_tier_pricing = Ok table /\
    calculate_revenue_targets table three_tier_allocation three_tier_pricing = Ok t /\
    filter (fun kv => mem (fst kv) mid_tier_codes)
           (priced_risk_rates three_tier_pricing) = [] /\
    risk_current (risk_mid_tier (targets_risk t)) == 0.
Proof.
  eexists. eexists.
  split; [vm_compute; reflexivity |].
  split; [vm_compute; reflexivity |].
  split; reflexivity.
Qed.



(** * Further properties of the code *)

(** ** Dictionaries *)

Lemma dict_get_set_same {V : Type} (d : dict V) (k : string) (v : V) :
  dict_get (dict_set d k v) k = Some v.
Proof.
  induction d as [| [k' v'] d IH]; simpl.
  - rewrite String.eqb_refl. reflexivity.
  - destruct (String.eqb k' k) eqn:E; simpl.
    + rewrite String.eqb_refl. reflexivity.
    + rewrite E. exact IH.
Qed.

Lemma dict_get_set_other {V : Type} (d : dict V) (k k' : string) (v : V) :
  k <> k' -> dict_get (dict_set d k v) k' = dict_get d k'.
Proof.
  intros Hne. induction d as [| [k0 v0] d IH]; simpl.
  - destruct (String.eqb k k') eqn:E; [| reflexivity].
    apply String.eqb_eq in E. contradiction.
  - destruct (String.eqb k0 k) eqn:E; simpl.
    + apply String.eqb_eq in E. subst k0.
      destruct (String.eqb k k') eqn:E'; [| reflexivity].
      apply String.eqb_eq in E'. contradiction.
    + rewrite IH. reflexivity.
Qed.




Lemma find_app_first {A : Type} (f : A -> bool) (l1 l2 : list A) :
  find f (l1 ++ l2) = match find f l1 with Some x => Some x | None => find f l2 end.
Proof.
  induction l1 as [| x l1 IH]; simpl.
  - reflexivity.
  - destruct (f x); [reflexivity | exact IH].
Qed.

Section ToDict.
Context {V : Type}.

Local Abbreviation step :=
  (fun (d : dict V) (kv : string * V) => dict_set d (fst kv) (snd kv)).



(** The value of a key is the one of its last pair. *)
Lemma fold_dict_set_get (l : list (string * V)) (d : dict V) (k : string) :
  dict_get (fold_left step l d) k
  = match find (fun kv => String.eqb (fst kv) k) (rev l) with
    | Some kv => Some (snd kv)
    | None => dict_get d k
    end.
Proof.
  revert d. induction l as [| [k0 v0] l IH]; simpl; intros d.
  - reflexivity.
  - rewrite IH. rewrite find_app_first.
    destruct (find (fun kv => String.eqb (fst kv) k) (rev l)) as [kv |];
      [reflexivity |].
    simpl. destruct (String.eqb k0 k) eqn:E.
    + apply String.eqb_eq in E. subst k0. apply dict_get_set_same.
    + apply dict_get_set_other. intros ->. rewrite String.eqb_refl in E.
      discriminate.
Qed.

End ToDict.





(** ** More on the revenue table *)

Lemma In_keys_pair {V : Type} (d : dict V) (k : string) :
  In k (keys d) -> exists v, In (k, v) d.
Proof.
  unfold keys. intros H. apply in_map_iff in H. destruct H as ([k' v] & Hk & Hin).
  simpl in Hk. subst k'. exists v. exact Hin.
Qed.

Lemma analyze_ok_priced (alloc : allocation) (pricing : pricing_table)
  (table : revenue_table) :
  analyze_revenue_potential alloc pricing = Ok table -> all_priced alloc pricing.
Proof.
  intros Han c Hin. destruct (In_keys_pair _ _ Hin) as (s & Hs).
  destruct (analyze_In_alloc _ _ _ _ _ Han Hs) as (cd & Hcd & _).
  exists cd. apply class_data_found. exact Hcd.
Qed.

Lemma analyze_raise_kind (alloc : allocation) (pricing : pricing_table) (e : exn) :
  analyze_revenue_potential alloc pricing = Raise e ->
  e = match pricing with [] => KeyError | _ => IndexError end.
Proof.
  induction alloc as [| [c s] alloc IH]; simpl; intros H.
  - discriminate.
  - destruct (class_data pricing c) as [cd | e'] eqn:E; simpl in H.
    + destruct (analyze_revenue_potential alloc pricing); simpl in H.
      * discriminate.
      * apply IH. exact H.
    + inversion H; subst. apply (class_data_raise _ _ _ E).
Qed.

Lemma machine_class_data_found (pricing_df : list Binary64.pricing) (c : string)
  (cd : Binary64.pricing) :
  Binary64.class_data pricing_df c = Ok cd ->
  In cd pricing_df /\ Binary64.Booking_Class cd = c.
Proof.
  unfold Binary64.class_data. destruct pricing_df as [| r0 rest]; [discriminate |].
  set (l := r0 :: rest).
  destruct (filter _ l) as [| r rs] eqn:E; [discriminate |].
  intros H; inversion H; subst r.
  assert (Hin : In cd (filter (fun r => String.eqb (Binary64.Booking_Class r) c) l))
    by (rewrite E; left; reflexivity).
  apply filter_In in Hin. destruct Hin as [Hin Heq].
  apply String.eqb_eq in Heq. split; assumption.
Qed.

Lemma machine_class_data_priced (pricing_df : list Binary64.pricing) (c : string) :
  (exists cd, In cd pricing_df /\ Binary64.Booking_Class cd = c) ->
  exists cd, Binary64.class_data pricing_df c = Ok cd.
Proof.
  intros (cd & Hin & Hc). unfold Binary64.class_data.
  destruct pricing_df as [| r0 rest]; [contradiction |].
  set (l := r0 :: rest) in *.
  destruct (filter _ l) as [| r rs] eqn:E.
  - assert (Hf : In cd (filter (fun r => String.eqb (Binary64.Booking_Class r) c) l)).
    { apply filter_In. split; [exact Hin |]. apply String.eqb_eq. exact Hc. }
    rewrite E in Hf. contradiction.
  - exists r. reflexivity.
Qed.

Lemma machine_analyze_ok_priced (alloc : allocation)
  (pricing_df : list Binary64.pricing) (table : dict Binary64.row) :
  Binary64.analyze_revenue_potential alloc pricing_df = Ok table ->
  forall c, In c (keys alloc) ->
            exists cd, In cd pricing_df /\ Binary64.Booking_Class cd = c.
Proof.
  revert table. induction alloc as [| [c' s'] alloc IH]; intros table H c Hin.
  - contradiction.
  - cbn [Binary64.analyze_revenue_potential] in H.
    apply bind_ok in H. destruct H as (cd & Hcd & H).
    apply bind_ok in H. destruct H as (r & _ & H).
    apply bind_ok in H. destruct H as (rest & Hrest & _).
    destruct Hin as [Heq | Hin].
    + cbn in Heq. subst c'. exists cd. apply machine_class_data_found. exact Hcd.
    + apply (IH _ Hrest c Hin).
Qed.

Lemma machine_analyze_total (alloc : allocation) (pricing_df : list Binary64.pricing) :
  seats_in_int64 alloc = true ->
  (forall c, In c (keys alloc) ->
             exists cd, In cd pricing_df /\ Binary64.Booking_Class cd = c) ->
  exists table, Binary64.analyze_revenue_potential alloc pricing_df = Ok table.
Proof.
  induction alloc as [| [c s] alloc IH]; intros Hseats Hp.
  - exists []. reflexivity.
  - cbn [seats_in_int64 forallb snd] in Hseats.
    apply andb_true_iff in Hseats. destruct Hseats as [Hs Hrest].
    cbn [Binary64.analyze_revenue_potential].
    destruct (machine_class_data_priced pricing_df c) as (cd & ->).
    { apply Hp. left. reflexivity. }
    cbn [bind]. destruct (machine_row_total s cd Hs) as (r & ->). cbn [bind].
    destruct (IH Hrest) as (table & ->).
    { intros c' Hin. apply Hp. right. exact Hin. }
    cbn [bind]. eexists. reflexivity.
Qed.

Lemma machine_analyze_raise_kind (alloc : allocation)
  (pricing_df : list Binary64.pricing) (e : exn) :
  seats_in_int64 alloc = true ->
  Binary64.analyze_revenue_potential alloc pricing_df = Raise e ->
  e = match pricing_df with [] => KeyError | _ => IndexError end.
Proof.
  induction alloc as [| [c s] alloc IH]; intros Hseats H.
  - discriminate.
  - cbn [seats_in_int64 forallb snd] in Hseats.
    apply andb_true_iff in Hseats. destruct Hseats as [Hs Hrest].
    cbn [Binary64.analyze_revenue_potential] in H.
    destruct (Binary64.class_data pricing_df c) as [cd | e'] eqn:E; cbn [bind] in H.
    + destruct (machine_row_total s cd Hs) as (r & Hr). rewrite Hr in H.
      cbn [bind] in H.
      destruct (Binary64.analyze_revenue_potential alloc pricing_df) as [t | e'];
        cbn [bind] in H.
      * discriminate.
      * apply (IH Hrest). exact H.
    + inversion H; subst. apply (machine_class_data_raise _ _ _ E).
Qed.

(** X1. When the seat counts fit in [int64], [analyze_revenue_potential]
    returns a table exactly when every class of the allocation has a pricing
    record (always, for an empty allocation); when it raises, it is with
    [IndexError], or with [KeyError] if the pricing has no record at all,
    never with an arithmetic error.  The same holds of the computation on
    the machine's values, whatever the types of the columns. *)
Theorem analyze_returns_iff_priced (alloc : allocation) :
  seats_in_int64 alloc = true ->
  (forall pricing : pricing_table,
     ((exists table, analyze_revenue_potential alloc pricing = Ok table)
      <-> all_priced alloc pricing) /\
     (forall e, analyze_revenue_potential alloc pricing = Raise e ->
                e = match pricing with [] => KeyError | _ => IndexError end)) /\
  (forall pricing_df : list Binary64.pricing,
     ((exists table, Binary64.analyze_revenue_potential alloc pricing_df = Ok table)
      <-> (forall c, In c (keys alloc) ->
                     exists cd, In cd pricing_df /\ Binary64.Booking_Class cd = c)) /\
     (forall e, Binary64.analyze_revenue_potential alloc pricing_df = Raise e ->
                e = match pricing_df with [] => KeyError | _ => IndexError end)).
Proof.
  intros Hseats. split.
  - intros pricing. split; [split |].
    + intros (table & H). apply (analyze_ok_priced _ _ _ H).
    + apply analyze_total.
    + apply analyze_raise_kind.
  - intros pricing_df. split; [split |].
    + intros (table & H). apply (machine_analyze_ok_priced _ _ _ H).
    + apply machine_analyze_total. exact Hseats.
    + intros e. apply machine_analyze_raise_kind. exact Hseats.
Qed.

Lemma analyze_returns_iff_priced_witness :
  (exists table,
     Binary64.analyze_revenue_potential scenario_allocation Binary64.scenario_pricing
     = Ok table)
  <-> (forall c, In c (keys scenario_allocation) ->
                 exists cd, In cd Binary64.scenario_pricing /\
                            Binary64.Booking_Class cd = c).
Proof.
  apply (proj2 (analyze_returns_iff_priced scenario_allocation eq_refl)
           Binary64.scenario_pricing).
Defined.

(** X2. The table has one row per class of the allocation, in the order of
    the allocation; its [Seats] column is the allocation and the
    [Risk_Factor] of a row is the one of the first pricing record of the
    class. *)
Theorem revenue_table_shape (alloc : allocation) (pricing : pricing_table)
  (table : revenue_table) :
  analyze_revenue_potential alloc pricing = Ok table ->
  keys table = keys alloc /\
  map Row.Seats (values table) = values alloc /\
  forall c row, In (c, row) table ->
    exists cd rest, records_of pricing c = cd :: rest /\
                    Row.Risk_Factor row = Pricing.Risk_Factor cd.
Proof.
  intros Han. split; [apply (analyze_keys _ _ _ Han) |]. split.
  - pose proof (analyze_rows _ _ _ Han) as Hrows. clear Han.
    induction Hrows as [| item entry alloc' table' [_ (cd & _ & Hrow)] _ IH]; simpl.
    + reflexivity.
    + rewrite Hrow. simpl. f_equal. exact IH.
  - intros c row Hin.
    destruct (analyze_In_table _ _ _ _ _ Han Hin) as (s & cd & _ & Hcd & ->).
    unfold class_data in Hcd. destruct pricing as [| r0 pricing']; [discriminate |].
    unfold records_of.
    destruct (filter _ (r0 :: pricing')) as [| r rs]; [discriminate |].
    inversion Hcd; subst r. exists cd, rs. split; reflexivity.
Qed.

Lemma revenue_table_shape_witness :
  keys scenario_table = keys scenario_allocation /\
  map Row.Seats (values scenario_table) = values scenario_allocation /\
  forall c row, In (c, row) scenario_table ->
    exists cd rest, records_of scenario_pricing c = cd :: rest /\
                    Row.Risk_Factor row = Pricing.Risk_Factor cd.
Proof.
  apply (revenue_table_shape scenario_allocation scenario_pricing).
  reflexivity.
Defined.

(** ** More on the schedule *)

Lemma sort_desc_length (l : revenue_table) :
  List.length (sort_desc l) = List.length l.
Proof. apply Permutation_length, Permutation_sym, sort_desc_perm. Qed.

Lemma optimize_total (alloc : allocation) (pricing : pricing_table)
  (table : revenue_table) :
  analyze_revenue_potential alloc pricing = Ok table ->
  table <> [] ->
  exists slots, optimize_peak_scheduling alloc pricing = Ok slots.
Proof.
  intros Han Hne. unfold optimize_peak_scheduling. rewrite Han. cbn [bind].
  destruct table as [| r table']; [congruence |].
  cbn [sort_values bind]. apply schedule_loop_total. intros c Hin.
  unfold keys in *.
  apply Permutation_in with (l := map fst (sort_desc (r :: table'))); [| exact Hin].
  apply Permutation_map, Permutation_sym, sort_desc_perm.
Qed.

Lemma schedule_loop_raise (table : revenue_table) (total : nat)
  (index : list string) (slots : time_slots) (e : exn) :
  schedule_loop table total index slots = Raise e -> e = KeyError.
Proof.
  revert slots. induction index as [| c index IH]; simpl; intros slots H.
  - discriminate.
  - unfold loc in H. destruct (find _ table) as [p |]; simpl in H.
    + apply (IH _ H).
    + inversion H. reflexivity.
Qed.

(** X4. When the seat counts fit in [int64], [optimize_peak_scheduling]
    returns its time slots exactly when the allocation is not empty and every
    class of it is priced.  An empty allocation ends in the [KeyError] of
    sorting a frame without columns; no call ends in an arithmetic error. *)
Theorem optimize_returns_iff (alloc : allocation) (pricing : pricing_table) :
  seats_in_int64 alloc = true ->
  ((exists slots, optimize_peak_scheduling alloc pricing = Ok slots)
   <-> alloc <> [] /\ all_priced alloc pricing) /\
  (alloc = [] -> optimize_peak_scheduling alloc pricing = Raise KeyError) /\
  (forall e, optimize_peak_scheduling alloc pricing = Raise e ->
             e = KeyError \/ e = IndexError).
Proof.
  intros _. split; [split |].
  - intros (slots & H). unfold optimize_peak_scheduling in H.
    apply bind_ok in H. destruct H as (table & Han & H).
    apply bind_ok in H. destruct H as (sorted & Hsort & _).
    split; [| apply (analyze_ok_priced _ _ _ Han)].
    intros ->. simpl in Han. inversion Han; subst table. discriminate.
  - intros [Hne Hp]. destruct (analyze_total _ _ Hp) as (table & Han).
    apply (optimize_total _ _ _ Han).
    intros ->. apply analyze_keys in Han. destruct alloc; [congruence | discriminate].
  - split.
    + intros ->. reflexivity.
    + intros e H. unfold optimize_peak_scheduling in H.
      apply bind_raise in H. destruct H as [H | (table & Han & H)].
      * rewrite (analyze_raise_kind _ _ _ H). destruct pricing; auto.
      * apply bind_raise in H. destruct H as [H | (sorted & Hsort & H)].
        -- unfold sort_values in H. destruct table; inversion H. left. reflexivity.
        -- left. apply (schedule_loop_raise _ _ _ _ _ H).
Qed.

Lemma optimize_returns_iff_witness :
  ((exists slots, optimize_peak_scheduling mixed_allocation mixed_pricing = Ok slots)
   <-> mixed_allocation <> [] /\ all_priced mixed_allocation mixed_pricing) /\
  (mixed_allocation = [] ->
   optimize_peak_scheduling mixed_allocation mixed_pricing = Raise KeyError) /\
  (forall e, optimize_peak_scheduling mixed_allocation mixed_pricing = Raise e ->
             e = KeyError \/ e = IndexError).
Proof.
  apply (optimize_returns_iff mixed_allocation mixed_pricing).
  reflexivity.
Defined.

Lemma optimize_closed_form (alloc : allocation) (pricing : pricing_table)
  (slots : time_slots) :
  nodup_keys alloc = true ->
  optimize_peak_scheduling alloc pricing = Ok slots ->
  exists table,
    analyze_revenue_potential alloc pricing = Ok table /\
    NoDup (keys table) /\
    let k := (List.length alloc / 4)%nat in
    let sorted := sort_desc table in
    Morning_Peak slots = keys (firstn k (filter ratio_high sorted)) /\
    Midday slots = keys (filter ratio_mid sorted) /\
    Evening_Peak slots = keys (skipn k (filter ratio_high sorted)) /\
    Off_Peak slots = keys (filter ratio_rest sorted).
Proof.
  intros Hnd H.
  destruct (optimize_peak_scheduling_ok _ _ _ Hnd H)
    as (table & sorted & Han & Hsort & Hsd & Hkeys & Hloc & Hslots).
  exists table. split; [exact Han |]. split; [exact Hkeys |].
  subst sorted. rewrite slots_after_closed in Hslots. rewrite sort_desc_length in Hslots.
  assert (Hlen : List.length table = List.length alloc).
  { pose proof (analyze_keys _ _ _ Han) as Hk. unfold keys in Hk.
    rewrite <- (length_map fst table), Hk. apply length_map. }
  rewrite Hlen in Hslots. subst slots. cbn. unfold keys.
  rewrite firstn_map, skipn_map. repeat split.
Qed.

(** X5. [Morning_Peak] never holds more than a quarter of the classes,
    rounded down, so it is empty for fewer than four classes; and
    [Evening_Peak] receives a class only once [Morning_Peak] is full. *)
Theorem morning_peak_bound (alloc : allocation) (pricing : pricing_table)
  (slots : time_slots) :
  nodup_keys alloc = true ->
  optimize_peak_scheduling alloc pricing = Ok slots ->
  (List.length (Morning_Peak slots) <= List.length alloc / 4)%nat /\
  ((List.length alloc < 4)%nat -> Morning_Peak slots = []) /\
  (Evening_Peak slots <> [] ->
   List.length (Morning_Peak slots) = (List.length alloc / 4)%nat).
Proof.
  intros Hnd H.
  destruct (optimize_closed_form _ _ _ Hnd H) as (table & _ & _ & Hm & _ & He & _).
  set (k := (List.length alloc / 4)%nat) in *.
  set (F := filter ratio_high (sort_desc table)) in *.
  assert (Hlm : List.length (Morning_Peak slots) = Nat.min k (List.length F)).
  { rewrite Hm. unfold keys. rewrite length_map. apply length_firstn. }
  split; [lia |]. split.
  - intros Hlt. assert (Hk : k = 0%nat) by (apply Nat.div_small; exact Hlt).
    rewrite Hm, Hk. reflexivity.
  - intros Hne. assert (Hle : (k < List.length F)%nat).
    { destruct (Nat.lt_ge_cases k (List.length F)) as [Hlt | Hge]; [exact Hlt |].
      elim Hne. rewrite He. rewrite skipn_all2 by exact Hge. reflexivity. }
    lia.
Qed.

Lemma morning_peak_bound_witness :
  (List.length ["J"] <= List.length mixed_allocation / 4)%nat /\
  ((List.length mixed_allocation < 4)%nat -> ["J"] = []) /\
  (["C"; "Q"] <> [] ->
   List.length ["J"] = (List.length mixed_allocation / 4)%nat).
Proof.
  apply (morning_peak_bound mixed_allocation mixed_pricing
           (mk_slots ["J"] ["Y"] ["C"; "Q"] ["M"])).
  - reflexivity.
  - vm_compute. reflexivity.
Defined.

Lemma In_firstn {A : Type} (k : nat) (l : list A) (x : A) :
  In x (firstn k l) -> In x l.
Proof.
  intros H. rewrite <- (firstn_skipn k l). apply in_or_app. left. exact H.
Qed.

Lemma In_skipn_list {A : Type} (k : nat) (l : list A) (x : A) :
  In x (skipn k l) -> In x l.
Proof.
  intros H. rewrite <- (firstn_skipn k l). apply in_or_app. right. exact H.
Qed.

Lemma StronglySorted_filter {A : Type} (R : A -> A -> Prop) (f : A -> bool)
  (l : list A) :
  StronglySorted R l -> StronglySorted R (filter f l).
Proof.
  induction 1 as [| x l Hs IH Hall]; simpl.
  - constructor.
  - destruct (f x); [| exact IH]. constructor; [exact IH |].
    rewrite Forall_forall in *. intros y Hy. apply Hall.
    apply filter_In in Hy. apply Hy.
Qed.

Lemma StronglySorted_app_inv {A : Type} (R : A -> A -> Prop) (l1 l2 : list A) :
  StronglySorted R (l1 ++ l2) ->
  StronglySorted R l1 /\ StronglySorted R l2 /\
  forall x y, In x l1 -> In y l2 -> R x y.
Proof.
  induction l1 as [| a l1 IH]; simpl; intros Hs.
  - split; [constructor |]. split; [exact Hs |]. intros x y [].
  - inversion Hs as [| ? ? Hs' Hall]; subst.
    destruct (IH Hs') as (H1 & H2 & H12). rewrite Forall_forall in Hall.
    split.
    + constructor; [exact H1 |]. rewrite Forall_forall. intros y Hy.
      apply Hall. apply in_or_app. left. exact Hy.
    + split; [exact H2 |]. intros x y [-> | Hx] Hy.
      * apply Hall. apply in_or_app. right. exact Hy.
      * apply H12; assumption.
Qed.

(** X6. The lists keep the sorted order: the rows behind [Morning_Peak]
    followed by those behind [Evening_Peak], and those behind [Midday] and
    behind [Off_Peak], are in descending order of [Revenue_per_Seat]; in
    particular no class of [Evening_Peak] earns more per seat than a class of
    [Morning_Peak]. *)
Theorem slots_keep_sorted_order (alloc : allocation) (pricing : pricing_table)
  (slots : time_slots) :
  nodup_keys alloc = true ->
  optimize_peak_scheduling alloc pricing = Ok slots ->
  exists table morning midday evening off_peak,
    analyze_revenue_potential alloc pricing = Ok table /\
    Morning_Peak slots = keys morning /\ Midday slots = keys midday /\
    Evening_Peak slots = keys evening /\ Off_Peak slots = keys off_peak /\
    incl (morning ++ midday ++ evening ++ off_peak) table /\
    StronglySorted row_ge (morning ++ evening) /\
    StronglySorted row_ge midday /\
    StronglySorted row_ge off_peak /\
    (forall m e, In m morning -> In e evening ->
       key_ge (Row.Revenue_per_Seat (snd m)) (Row.Revenue_per_Seat (snd e)) = true).
Proof.
  intros Hnd H.
  destruct (optimize_closed_form _ _ _ Hnd H)
    as (table & Han & _ & Hm & Hd & He & Ho).
  set (k := (List.length alloc / 4)%nat) in *.
  set (sorted := sort_desc table) in *.
  exists table, (firstn k (filter ratio_high sorted)), (filter ratio_mid sorted),
    (skipn k (filter ratio_high sorted)), (filter ratio_rest sorted).
  repeat (split; [assumption |]).
  assert (Hs : StronglySorted row_ge sorted) by apply sort_desc_sorted.
  assert (Hin : forall x, In x sorted -> In x table).
  { intros x Hx. apply Permutation_in with (l := sorted); [| exact Hx].
    apply Permutation_sym, sort_desc_perm. }
  assert (Hhigh : StronglySorted row_ge
                    (firstn k (filter ratio_high sorted)
                     ++ skipn k (filter ratio_high sorted))).
  { rewrite firstn_skipn. apply StronglySorted_filter. exact Hs. }
  split.
  - intros x Hx. apply Hin. rewrite !in_app_iff in Hx.
    destruct Hx as [Hx | [Hx | [Hx | Hx]]].
    + apply In_firstn in Hx. apply filter_In in Hx. apply Hx.
    + apply filter_In in Hx. apply Hx.
    + apply In_skipn_list in Hx. apply filter_In in Hx. apply Hx.
    + apply filter_In in Hx. apply Hx.
  - split; [exact Hhigh |].
    split; [apply StronglySorted_filter; exact Hs |].
    split; [apply StronglySorted_filter; exact Hs |].
    intros m e Hm' He'.
    apply (StronglySorted_app_inv _ _ _ Hhigh); assumption.
Qed.

Lemma slots_keep_sorted_order_witness :
  exists table morning midday evening off_peak,
    analyze_revenue_potential mixed_allocation mixed_pricing = Ok table /\
    ["J"] = keys morning /\ ["Y"] = keys midday /\
    ["C"; "Q"] = keys evening /\ ["M"] = keys off_peak /\
    incl (morning ++ midday ++ evening ++ off_peak) table /\
    StronglySorted row_ge (morning ++ evening) /\
    StronglySorted row_ge midday /\
    StronglySorted row_ge off_peak /\
    (forall m e, In m morning -> In e evening ->
       key_ge (Row.Revenue_per_Seat (snd m)) (Row.Revenue_per_Seat (snd e)) = true).
Proof.
  apply (slots_keep_sorted_order mixed_allocation mixed_pricing
           (mk_slots ["J"] ["Y"] ["C"; "Q"] ["M"])).
  - reflexivity.
  - vm_compute. reflexivity.
Defined.

(** X7. A class that is allocated no seat is always filed under [Off_Peak]:
    both its revenues are zero, its peak ratio is [nan], and [nan] fails both
    comparisons of the loop. *)
Theorem zero_seat_class_is_off_peak (alloc : allocation) (pricing : pricing_table)
  (slots : time_slots) (c : string) :
  nodup_keys alloc = true ->
  optimize_peak_scheduling alloc pricing = Ok slots ->
  In (c, 0%Z) alloc ->
  In c (Off_Peak slots) /\
  ~ In c (Morning_Peak slots) /\ ~ In c (Midday slots) /\ ~ In c (Evening_Peak slots).
Proof.
  intros Hnd H Hin.
  destruct (optimize_closed_form _ _ _ Hnd H)
    as (table & Han & Hkeys & Hm & Hd & He & Ho).
  destruct (analyze_In_alloc _ _ _ _ _ Han Hin) as (cd & _ & Hrow).
  assert (Hnan : peak_ratio (revenue_row 0 cd) = NaN).
  { apply np_true_divide_zero_zero;
      cbn [revenue_row Row.Peak_Revenue Row.Off_Peak_Revenue]; ring. }
  assert (Hsorted : In (c, revenue_row 0 cd) (sort_desc table)).
  { apply Permutation_in with (l := table); [apply sort_desc_perm | exact Hrow]. }
  assert (Hoff : In c (Off_Peak slots)).
  { rewrite Ho. unfold keys. change c with (fst (c, revenue_row 0 cd)).
    apply in_map. apply filter_In. split; [exact Hsorted |].
    unfold ratio_rest. cbn [snd]. rewrite Hnan. reflexivity. }
  split; [exact Hoff |].
  assert (Hnd' : NoDup (all_slots slots)).
  { apply Permutation_NoDup with (l := keys table); [| exact Hkeys].
    apply Permutation_sym.
    destruct (optimize_peak_scheduling_ok _ _ _ Hnd H)
      as (table' & sorted & Han' & _ & Hsd & _ & _ & Hslots).
    rewrite Han in Han'. inversion Han'; subst table'.
    rewrite Hslots. eapply perm_trans; [apply all_slots_perm |].
    subst sorted. apply Permutation_map, Permutation_sym, sort_desc_perm. }
  unfold all_slots in Hnd'.
  assert (Hdisj : forall l1 l2 : list string,
             NoDup (l1 ++ l2) -> In c l2 -> ~ In c l1).
  { intros l1 l2 Hn H2 H1. induction l1 as [| a l1 IH]; [contradiction |].
    simpl in Hn. inversion Hn as [| ? ? Hna Hn']; subst.
    destruct H1 as [-> | H1].
    - apply Hna. apply in_or_app. right. exact H2.
    - apply IH; assumption. }
  split; [| split].
  - apply (Hdisj _ _ Hnd'). rewrite !in_app_iff. auto.
  - apply NoDup_app_remove_l in Hnd'.
    apply (Hdisj _ _ Hnd'). rewrite !in_app_iff. auto.
  - apply NoDup_app_remove_l in Hnd'. apply NoDup_app_remove_l in Hnd'.
    apply (Hdisj _ _ Hnd'). exact Hoff.
Qed.

Lemma zero_seat_class_is_off_peak_witness :
  In "J" ["J"] /\ ~ In "J" [] /\ ~ In "J" [] /\ ~ In "J" ["Y"].
Proof.
  apply (zero_seat_class_is_off_peak idle_allocation scenario_pricing
           (mk_slots [] [] ["Y"] ["J"]) "J").
  - reflexivity.
  - vm_compute. reflexivity.
  - right. left. reflexivity.
Defined.

(** ** More on the targets *)

Lemma inject_Z_zero (z : Z) : inject_Z z == 0 <-> z = 0%Z.
Proof. unfold Qeq. simpl. lia. Qed.

Lemma analyze_current_performance_cases (rt : revenue_table) (alloc : allocation)
  (pricing : pricing_table) :
  analyze_current_performance rt alloc pricing
  = match rt with
    | [] => Raise KeyError
    | _ =>
        if (sumZ (values alloc) =? 0)%Z then Raise ZeroDivisionError
        else match pricing with
             | [] => Raise KeyError
             | _ =>
                 Ok {| total_revenue := sumQ (base_revenues rt);
                       avg_revenue_per_seat :=
                         sumQ (base_revenues rt) / inject_Z (sumZ (values alloc));
                       class_performance :=
                         to_dict (map (fun p => (fst p, Row.Revenue_per_Seat (snd p))) rt);
                       risk_rates := priced_risk_rates pricing;
                       current_occupancy := inject_Z (sumZ (values alloc)) / 400 |}
             end
    end.
Proof.
  unfold analyze_current_performance. destruct rt as [| r rt']; [reflexivity |].
  unfold py_div. destruct (Z.eqb_spec (sumZ (values alloc)) 0) as [E | E].
  - rewrite E. reflexivity.
  - rewrite Qeq_bool_false by (rewrite inject_Z_zero; exact E). reflexivity.
Qed.

Lemma analyze_current_performance_fields (rt : revenue_table) (alloc : allocation)
  (pricing : pricing_table) (current : current_metrics) :
  analyze_current_performance rt alloc pricing = Ok current ->
  sumZ (values alloc) <> 0%Z /\
  avg_revenue_per_seat current
  = sumQ (base_revenues rt) / inject_Z (sumZ (values alloc)) /\
  class_performance current
  = to_dict (map (fun p => (fst p, Row.Revenue_per_Seat (snd p))) rt) /\
  current_occupancy current = inject_Z (sumZ (values alloc)) / 400.
Proof.
  rewrite analyze_current_performance_cases. intros H.
  assert (Hrt : exists r rt', rt = r :: rt').
  { destruct rt as [| r rt']; [discriminate | eauto]. }
  destruct Hrt as (r & rt' & Hrt). rewrite Hrt in H at 1.
  destruct (Z.eqb_spec (sumZ (values alloc)) 0) as [E | E]; [discriminate |].
  destruct pricing as [| pr pricing']; [discriminate |].
  injection H as <-. cbn [avg_revenue_per_seat class_performance current_occupancy].
  repeat split. exact E.
Qed.








Lemma calculate_ok (rt : revenue_table) (alloc : allocation)
  (pricing : pricing_table) (t : targets) :
  calculate_revenue_targets rt alloc pricing = Ok t ->
  exists current bc rk,
    analyze_current_performance rt alloc pricing = Ok current /\
    _set_class_targets current = Ok bc /\
    _set_risk_targets current = Ok rk /\
    t = {| targets_revenue :=
             {| overall := _set_overall_targets current;
                by_class := bc;
                by_time := _set_time_targets current |};
           targets_risk := rk;
           targets_occupancy := _set_occupancy_targets current |}.
Proof.
  unfold calculate_revenue_targets. intros H.
  apply bind_ok in H. destruct H as (current & Hc & H).
  apply bind_ok in H. destruct H as (bc & Hbc & H).
  apply bind_ok in H. destruct H as (rk & Hrk & H).
  exists current, bc, rk. inversion H. auto.
Qed.


(** The three tests of the yield tiers on one value, between the bounds
    [a <= b]: a value that is not [nan] passes exactly one of them, [nan]
    passes none. *)
Lemma tier_tests_exclusive (a b : Q) (v : num) :
  a <= b ->
  let h := num_gtb v (Fin b) in
  let m := num_leb (Fin a) v && num_leb v (Fin b) in
  let l := num_ltb v (Fin a) in
  (is_nan v = true /\ h = false /\ m = false /\ l = false) \/
  (is_nan v = false /\ h = true /\ m = false /\ l = false) \/
  (is_nan v = false /\ h = false /\ m = true /\ l = false) \/
  (is_nan v = false /\ h = false /\ m = false /\ l = true).
Proof.
  intros Hab. destruct v as [x | | |]; simpl.
  - unfold Qltb.
    destruct (Qle_bool x b) eqn:Exb, (Qle_bool a x) eqn:Eax; simpl.
    + right. right. left. auto.
    + right. right. right. auto.
    + right. left. auto.
    + exfalso.
      assert (H1 : ~ x <= b) by (intros H; apply Qle_bool_iff in H; congruence).
      assert (H2 : ~ a <= x) by (intros H; apply Qle_bool_iff in H; congruence).
      apply Qnot_le_lt in H1, H2. lra.
  - right. left. auto.
  - right. right. right. auto.
  - left. auto.
Qed.

Lemma yield_tiers_perm (current : current_metrics) :
  0 <= avg_revenue_per_seat current ->
  Permutation
    (high_yield current ++ mid_yield current ++ low_yield current)
    (filter (fun kv => negb (is_nan (snd kv))) (class_performance current)).
Proof.
  intros Havg. unfold high_yield, mid_yield, low_yield.
  set (a := avg_revenue_per_seat current * 0.8).
  set (b := avg_revenue_per_seat current * 1.2).
  assert (Hab : a <= b) by (unfold a, b; lra).
  induction (class_performance current) as [| [k v] l IH]; cbn [filter snd app].
  - constructor.
  - destruct (tier_tests_exclusive a b v Hab)
      as [(-> & -> & -> & ->) | [(-> & -> & -> & ->) |
          [(-> & -> & -> & ->) | (-> & -> & -> & ->)]]];
      cbn [negb app].
    + exact IH.
    + apply perm_skip. exact IH.
    + apply Permutation_sym, Permutation_cons_app, Permutation_sym. exact IH.
    + rewrite app_assoc. apply Permutation_sym, Permutation_cons_app.
      rewrite <- app_assoc. apply Permutation_sym. exact IH.
Qed.

(** X11. When the average revenue per seat is not negative, the three yield
    tiers split the classes that have a revenue per seat: every such class is
    in exactly one tier.  A class whose revenue per seat is [nan] (a class
    without seats) is in no tier, so it gets no class target. *)
Theorem yield_tiers_partition (current : current_metrics) :
  0 <= avg_revenue_per_seat current ->
  NoDup (keys (class_performance current)) ->
  Permutation
    (high_yield current ++ mid_yield current ++ low_yield current)
    (filter (fun kv => negb (is_nan (snd kv))) (class_performance current)) /\
  NoDup (keys (high_yield current ++ mid_yield current ++ low_yield current)) /\
  (forall k, In (k, NaN) (class_performance current) ->
             ~ In k (keys (high_yield current ++ mid_yield current
                           ++ low_yield current))).
Proof.
  intros Havg Hnd. pose proof (yield_tiers_perm current Havg) as Hp.
  assert (Hsub : forall l : dict num,
             NoDup (keys l) ->
             NoDup (keys (filter (fun kv => negb (is_nan (snd kv))) l)) /\
             forall k, In (k, NaN) l ->
                       ~ In k (keys (filter (fun kv => negb (is_nan (snd kv))) l))).
  { induction l as [| [k v] l IH]; simpl; intros Hn.
    - split; [constructor | intros k []].
    - inversion Hn as [| ? ? Hk Hn']; subst. destruct (IH Hn') as [IH1 IH2].
      assert (Hin : forall k', In k' (keys (filter (fun kv => negb (is_nan (snd kv))) l))
                               -> In k' (keys l)).
      { intros k' H. unfold keys in *. apply in_map_iff in H.
        destruct H as (p & <- & H). apply filter_In in H. apply in_map. apply H. }
      destruct (is_nan v) eqn:Ev; simpl.
      + split; [exact IH1 |]. intros k' [H | H].
        * inversion H; subst. intros H'. apply Hk, Hin, H'.
        * apply IH2. exact H.
      + split.
        * constructor; [| exact IH1]. intros H. apply Hk, Hin, H.
        * intros k' [H | H]; [inversion H; subst; discriminate |].
          intros [<- | H'].
          -- apply Hk. change k with (fst (k, NaN)). apply in_map. exact H.
          -- apply (IH2 _ H H'). }
  destruct (Hsub _ Hnd) as [H1 H2].
  assert (Hpk := Permutation_map fst Hp). fold (keys (V := num)) in Hpk.
  split; [exact Hp |]. split.
  - apply Permutation_NoDup with (2 := H1). apply Permutation_sym. exact Hpk.
  - intros k Hk Hin. apply (H2 k Hk). apply (Permutation_in _ Hpk). exact Hin.
Qed.

Lemma yield_tiers_partition_witness :
  let current :=
    mk_current 600 200 [("Y", Fin 300); ("M", Fin 200); ("Q", Fin 100); ("Z", NaN)]
               [] 0 in
  Permutation
    (high_yield current ++ mid_yield current ++ low_yield current)
    (filter (fun kv => negb (is_nan (snd kv))) (class_performance current)) /\
  NoDup (keys (high_yield current ++ mid_yield current ++ low_yield current)) /\
  (forall k, In (k, NaN) (class_performance current) ->
             ~ In k (keys (high_yield current ++ mid_yield current
                           ++ low_yield current))).
Proof.
  apply (yield_tiers_partition
           (mk_current 600 200
              [("Y", Fin 300); ("M", Fin 200); ("Q", Fin 100); ("Z", NaN)] [] 0)).
  - discriminate.
  - apply nodup_keys_NoDup. reflexivity.
Defined.




(** X13. The occupancy target is capped at 0.95 and never more than 10%
    above the current occupancy, which is the allocated seats over 400.  Up to
    345 seats the target is the current occupancy plus 10%; above 380 seats
    the current occupancy already exceeds 0.95 and the target is below it. *)
Theorem occupancy_target_cap (rt : revenue_table) (alloc : allocation)
  (pricing : pricing_table) (t : targets) :
  calculate_revenue_targets rt alloc pricing = Ok t ->
  let o := targets_occupancy t in
  let seats := sumZ (values alloc) in
  occ_current_occupancy o == inject_Z seats / 400 /\
  target_occupancy o <= 0.95 /\
  target_occupancy o <= occ_current_occupancy o * 1.10 /\
  ((seats <= 345)%Z -> target_occupancy o == occ_current_occupancy o * 1.10) /\
  ((380 < seats)%Z -> target_occupancy o < occ_current_occupancy o).
Proof.
  intros H o seats.
  destruct (calculate_ok _ _ _ _ H) as (current & bc & rk & Hc & _ & _ & Ht).
  destruct (analyze_current_performance_fields _ _ _ _ Hc) as (_ & _ & _ & Ho).
  subst o. rewrite Ht. cbn [targets_occupancy _set_occupancy_targets
                            occ_current_occupancy target_occupancy].
  rewrite Ho. fold seats. set (x := inject_Z seats).
  unfold py_min.
  assert (Hdiv : x / 400 == x * (1 # 400)) by reflexivity.
  split; [reflexivity |].
  destruct (Qltb 0.95 (x / 400 * 1.10)) eqn:E.
  - apply Qltb_lt in E. rewrite Hdiv in E. rewrite Hdiv.
    split; [lra |]. split; [lra |]. split.
    + intros Hs. assert (Hx : x <= 345).
      { unfold x. change 345 with (inject_Z 345). rewrite <- Zle_Qle. exact Hs. }
      lra.
    + intros Hs. assert (Hx : 380 < x).
      { unfold x. change 380 with (inject_Z 380). rewrite <- Zlt_Qlt. exact Hs. }
      lra.
  - assert (Hle : x / 400 * 1.10 <= 0.95).
    { apply Qnot_lt_le. intros Hlt. apply Qltb_lt in Hlt. congruence. }
    rewrite Hdiv in Hle. rewrite Hdiv.
    split; [lra |]. split; [lra |]. split.
    + intros _. reflexivity.
    + intros Hs. assert (Hx : 380 < x).
      { unfold x. change 380 with (inject_Z 380). rewrite <- Zlt_Qlt. exact Hs. }
      lra.
Qed.

Lemma occupancy_target_cap_witness :
  exists t,
    calculate_revenue_targets
      three_tier_table three_tier_allocation three_tier_pricing = Ok t /\
    let o := targets_occupancy t in
    let seats := sumZ (values three_tier_allocation) in
    occ_current_occupancy o == inject_Z seats / 400 /\
    target_occupancy o <= 0.95 /\
    target_occupancy o <= occ_current_occupancy o * 1.10 /\
    ((seats <= 345)%Z -> target_occupancy o == occ_current_occupancy o * 1.10) /\
    ((380 < seats)%Z -> target_occupancy o < occ_current_occupancy o).
Proof.
  eexists. split; [vm_compute; reflexivity |].
  apply (occupancy_target_cap
           three_tier_table three_tier_allocation three_tier_pricing).
  vm_compute. reflexivity.
Defined.

Lemma find_hd_filter {A : Type} (f : A -> bool) (l : list A) :
  find f l = hd_error (filter f l).
Proof.
  induction l as [| x l IH]; simpl; [reflexivity |].
  destruct (f x); [reflexivity | exact IH].
Qed.

Lemma find_map_pre {A B : Type} (g : B -> bool) (h : A -> B) (l : list A) :
  find g (map h l) = option_map h (find (fun x => g (h x)) l).
Proof.
  induction l as [| x l IH]; simpl; [reflexivity |].
  destruct (g (h x)); [reflexivity | exact IH].
Qed.

Lemma last_cons_default {A : Type} (z x y : A) (l : list A) :
  last (z :: l) x = last (z :: l) y.
Proof.
  revert z. induction l as [| w l IH]; intros z; [reflexivity |].
  change (last (w :: l) x = last (w :: l) y). apply IH.
Qed.

Lemma hd_error_snoc_rev {A : Type} (l : list A) (x : A) :
  hd_error (rev l ++ [x]) = Some (last l x).
Proof.
  revert x. induction l as [| y l IH]; intros x; [reflexivity |].
  cbn [rev]. specialize (IH y).
  destruct (rev l ++ [y]) as [| z zs] eqn:E; [discriminate IH |].
  cbn [app hd_error] in *. rewrite IH. f_equal.
  destruct l as [| w l]; [reflexivity |].
  change (last (w :: l) y = last (w :: l) x). apply last_cons_default.
Qed.

Lemma hd_error_rev_last {A : Type} (x : A) (l : list A) :
  hd_error (rev (x :: l)) = Some (last l x).
Proof. apply hd_error_snoc_rev. Qed.

(** The risk rate that the targets read for a class is the one of its last
    pricing record. *)
Lemma priced_risk_rates_get (pricing : pricing_table) (c : string) :
  dict_get (priced_risk_rates pricing) c
  = match records_of pricing c with
    | [] => None
    | first :: rest => Some (Pricing.Risk_Factor (last rest first))
    end.
Proof.
  unfold priced_risk_rates, to_dict. rewrite fold_dict_set_get.
  rewrite <- map_rev, find_map_pre. cbn [fst dict_get].
  rewrite find_hd_filter, filter_rev. fold (records_of pricing c).
  destruct (records_of pricing c) as [| first rest].
  - reflexivity.
  - rewrite hd_error_rev_last. reflexivity.
Qed.

(** X15. When the pricing has several records for one class, the two
    computations read different ones: the revenue table takes the risk factor
    of the first record of the class, the risk rates of the targets take the
    one of the last. *)
Theorem duplicate_records_first_and_last (alloc : allocation)
  (pricing : pricing_table) (table : revenue_table) (current : current_metrics)
  (c : string) (row : Row.t) :
  analyze_revenue_potential alloc pricing = Ok table ->
  analyze_current_performance table alloc pricing = Ok current ->
  In (c, row) table ->
  exists first rest,
    records_of pricing c = first :: rest /\
    Row.Risk_Factor row = Pricing.Risk_Factor first /\
    dict_get (risk_rates current) c = Some (Pricing.Risk_Factor (last rest first)).
Proof.
  intros Han Hc Hin.
  destruct (analyze_In_table _ _ _ _ _ Han Hin) as (s & cd & _ & Hcd & ->).
  destruct (analyze_current_performance_ok _ _ _ _ Hc) as [_ ->].
  rewrite priced_risk_rates_get.
  unfold class_data in Hcd. destruct pricing as [| r0 pricing']; [discriminate |].
  unfold records_of.
  destruct (filter _ (r0 :: pricing')) as [| r rs]; [discriminate |].
  inversion Hcd; subst r. exists cd, rs. repeat split.
Qed.

Lemma duplicate_records_first_and_last_witness :
  exists first rest,
    records_of [Pricing.mk "Y" 200 260 150 0.1; Pricing.mk "Y" 210 270 160 0.3] "Y"
    = first :: rest /\
    Row.Risk_Factor (revenue_row 100 (Pricing.mk "Y" 200 260 150 0.1))
    = Pricing.Risk_Factor first /\
    dict_get [("Y", 0.3)] "Y" = Some (Pricing.Risk_Factor (last rest first)).
Proof.
  apply (duplicate_records_first_and_last
           [("Y", 100%Z)]
           [Pricing.mk "Y" 200 260 150 0.1; Pricing.mk "Y" 210 270 160 0.3]
           [("Y", revenue_row 100 (Pricing.mk "Y" 200 260 150 0.1))]
           (mk_current (sumQ [Row.Base_Revenue
                                (revenue_row 100 (Pricing.mk "Y" 200 260 150 0.1))])
              (sumQ [Row.Base_Revenue
                       (revenue_row 100 (Pricing.mk "Y" 200 260 150 0.1))]
               / inject_Z 100)
              [("Y", Row.Revenue_per_Seat
                       (revenue_row 100 (Pricing.mk "Y" 200 260 150 0.1)))]
              [("Y", 0.3)] (inject_Z 100 / 400))
           "Y").
  - reflexivity.
  - reflexivity.
  - left. reflexivity.
Defined.









(** ** The targets of the yield tiers *)

Lemma class_target_of_ok (class_type : string) (cls : dict num) (t : class_target) :
  class_target_of class_type cls = Ok t ->
  classes t = keys cls /\
  py_div_num (sum_num (values cls)) (len cls) = Ok (current_average t) /\
  target_revenue t
  = map (fun kv => (fst kv, num_mul (snd kv) (Fin (1 + improvement_target class_type))))
        cls.
Proof.
  unfold class_target_of. intros H.
  apply bind_ok in H. destruct H as (m & Hm & H).
  apply bind_ok in H. destruct H as (acts & _ & H).
  inversion H. cbn. auto.
Qed.

(** X17. When [_set_class_targets] returns, the result has the three entries
    premium, mid_tier and economy, in this order; each lists the classes of
    its tier with their revenue per seat raised by 20%, 15% and 10%. *)
Theorem class_targets_by_tier (current : current_metrics) (bc : dict class_target) :
  _set_class_targets current = Ok bc ->
  exists tp tm te,
    bc = [("premium", tp); ("mid_tier", tm); ("economy", te)] /\
    classes tp = keys (high_yield current) /\
    classes tm = keys (mid_yield current) /\
    classes te = keys (low_yield current) /\
    target_revenue tp
    = map (fun kv => (fst kv, num_mul (snd kv) (Fin (1 + 0.20)))) (high_yield current) /\
    target_revenue tm
    = map (fun kv => (fst kv, num_mul (snd kv) (Fin (1 + 0.15)))) (mid_yield current) /\
    target_revenue te
    = map (fun kv => (fst kv, num_mul (snd kv) (Fin (1 + 0.10)))) (low_yield current).
Proof.
  intros H. unfold _set_class_targets in H. cbn [class_targets_loop] in H.
  apply bind_ok in H. destruct H as (tp & Hp & H).
  apply bind_ok in H. destruct H as (tm & Hm & H).
  apply bind_ok in H. destruct H as (te & He & H).
  exists tp, tm, te.
  destruct (class_target_of_ok _ _ _ Hp) as (Hp1 & Hp2 & Hp3).
  destruct (class_target_of_ok _ _ _ Hm) as (Hm1 & Hm2 & Hm3).
  destruct (class_target_of_ok _ _ _ He) as (He1 & He2 & He3).
  split; [inversion H; reflexivity |].
  repeat (split; [assumption |]). assumption.
Qed.

Lemma class_targets_by_tier_witness :
  exists bc,
    _set_class_targets
      (mk_current 600 200 [("Y", Fin 300); ("M", Fin 200); ("Q", Fin 100)] [] 0)
    = Ok bc /\
    exists tp tm te,
      bc = [("premium", tp); ("mid_tier", tm); ("economy", te)] /\
      classes tp = ["Y"] /\ classes tm = ["M"] /\ classes te = ["Q"] /\
      target_revenue tp = [("Y", num_mul (Fin 300) (Fin (1 + 0.20)))] /\
      target_revenue tm = [("M", num_mul (Fin 200) (Fin (1 + 0.15)))] /\
      target_revenue te = [("Q", num_mul (Fin 100) (Fin (1 + 0.10)))].
Proof.
  eexists. split; [vm_compute; reflexivity |].
  apply (class_targets_by_tier
           (mk_current 600 200 [("Y", Fin 300); ("M", Fin 200); ("Q", Fin 100)] [] 0)).
  vm_compute. reflexivity.
Defined.

(** ** The features for the clustering *)

